(** * csv-timeline: timecode parsing, formatting and CSV segment construction

    A shallow embedding of the parsing core of [app.py]:
    [parse_timecode], [format_timecode], [normalize_column_name],
    [find_source_column] and, of the route [upload_csv], what follows
    [pd.read_csv]: the column resolution, the loop over the rows, the sort
    and the answer.  Of the other functions, [allowed_video_file], the
    checks that the route [/upload-csv] makes before it reads the file, and
    the data frame that [export_csv] builds are embedded as well; the
    functions that call out to the network, to ffmpeg or to the file system
    are not.

    Conventions of the embedding.
    - Python [str] values are [string]s of ASCII text; [lower], [upper] and
      [strip] act on them as CPython does on ASCII.  Codes above 127 have no
      case and are no whitespace here; Unicode case mapping is not modelled.
    - A Python number is an [int] (unbounded, [Z]) or a [float] (IEEE 754
      binary64: [spec_float] with precision 53 and maximal exponent 1024,
      rounded to nearest even).  Comparisons are exact, also between an int
      and a float, and false on NaN.
    - A Python call that may raise returns [res]: [Ret v] or [Raise e].
    - [int(s)] and [float(s)] follow CPython's grammar for ASCII text
      (blanks around, sign, digits with single underscores, and for floats a
      fraction, an exponent, [inf], [infinity], [nan]); the interpreter's
      optional limit on the number of digits of [int(s)] is not modelled.
    - A data frame is its list of column labels and its rows in positional
      order; a row maps a label to the text [str(row[label])] of its cell. *)

From Stdlib Require Import ZArith QArith Bool List Lia Permutation Sorted.
From Stdlib Require Import Ascii String.
From Stdlib Require Import Floats.SpecFloat.
From Stdlib Require DecimalString DecimalPos DecimalN.
Import ListNotations.

Local Open Scope string_scope.
Local Open Scope Z_scope.

(** ** Exceptions and fallible computations *)

Inductive exn : Type :=
| ValueError
| TypeError
| OverflowError
| ZeroDivisionError
| KeyError.

Inductive res (A : Type) : Type :=
| Ret (a : A)
| Raise (e : exn).

Arguments Ret {A} a.
Arguments Raise {A} e.

Definition bind {A B : Type} (c : res A) (k : A -> res B) : res B :=
  match c with
  | Ret a => k a
  | Raise e => Raise e
  end.

Notation "x <- c ;; k" := (bind c (fun x => k))
  (at level 61, c at next level, right associativity).

(** [try: c except (h): d] runs [d] when [c] raises an exception that the
    clause [h] lists; any other exception propagates. *)
Definition try_except {A : Type} (c : res A) (h : exn -> bool) (d : res A) : res A :=
  match c with
  | Ret a => Ret a
  | Raise e => if h e then d else Raise e
  end.

(** [except (ValueError, TypeError)] *)
Definition value_or_type_error (e : exn) : bool :=
  match e with
  | ValueError | TypeError => true
  | _ => false
  end.

(** [except Exception] *)
Definition any_exception (e : exn) : bool := true.

(** ** Python strings *)

Module PyStr.

Definition code (c : ascii) : N := N_of_ascii c.

(** Whitespace of [str.strip()], [Py_UNICODE_ISSPACE] on ASCII:
    TAB..CR, FS..US and space. *)
Definition is_space (c : ascii) : bool :=
  let n := code c in
  ((9 <=? n) && (n <=? 13) || (28 <=? n) && (n <=? 32))%N.

(** Whitespace of the numeric parsers, [Py_ISSPACE]: TAB..CR and space. *)
Definition is_cspace (c : ascii) : bool :=
  let n := code c in
  ((9 <=? n) && (n <=? 13) || (n =? 32))%N.

Definition is_upper (c : ascii) : bool :=
  let n := code c in ((65 <=? n) && (n <=? 90))%N.


Definition lower_char (c : ascii) : ascii :=
  if is_upper c then ascii_of_N (code c + 32) else c.


Fixpoint map_chars (f : ascii -> ascii) (s : string) : string :=
  match s with
  | EmptyString => EmptyString
  | String c s' => String (f c) (map_chars f s')
  end.

(** [s.lower()] and [s.upper()] *)
Definition lower (s : string) : string := map_chars lower_char s.

Fixpoint all_chars (p : ascii -> bool) (s : string) : bool :=
  match s with
  | EmptyString => true
  | String c s' => p c && all_chars p s'
  end.

Fixpoint lstrip_by (p : ascii -> bool) (s : string) : string :=
  match s with
  | EmptyString => EmptyString
  | String c s' => if p c then lstrip_by p s' else s
  end.

Fixpoint rstrip_by (p : ascii -> bool) (s : string) : string :=
  match s with
  | EmptyString => EmptyString
  | String c s' =>
      match rstrip_by p s' with
      | EmptyString => if p c then EmptyString else String c EmptyString
      | r => String c r
      end
  end.

Definition strip_by (p : ascii -> bool) (s : string) : string :=
  rstrip_by p (lstrip_by p s).

(** [s.strip()] *)
Definition strip (s : string) : string := strip_by is_space s.

(** [sub in s] *)
Fixpoint contains (sub s : string) : bool :=
  prefix sub s ||
  match s with
  | EmptyString => false
  | String _ s' => contains sub s'
  end.

(** [s.split(sep)] for a one-character separator. *)
Fixpoint split (sep : ascii) (s : string) : list string :=
  match s with
  | EmptyString => [EmptyString]
  | String c s' =>
      if Ascii.eqb c sep then EmptyString :: split sep s'
      else
        match split sep s' with
        | [] => [String c EmptyString]
        | p :: ps => String c p :: ps
        end
  end.

(** [sep.join(parts)] *)
Definition join (sep : string) (parts : list string) : string :=
  String.concat sep parts.

End PyStr.

(** ** Python numbers *)

Module PyNum.

(** binary64 *)
Definition prec : Z := 53.
Definition emax : Z := 1024.

Inductive num : Type :=
| PyInt (z : Z)
| PyFloat (f : spec_float).

Definition Z2SF (z : Z) : spec_float := binary_normalize prec emax z 0 false.

(** The correctly rounded quotient of two positive integers, with sign [s]. *)
Definition ratio2SF (s : bool) (p q : positive) : spec_float :=
  SFdiv prec emax (S754_finite s p 0) (S754_finite false q 0).

(** [float(n)] for an int ([PyLong_AsDouble]): round to nearest even,
    [OverflowError] when the result is out of range. *)
Definition of_int (z : Z) : res spec_float :=
  match Z2SF z with
  | S754_infinity _ => Raise OverflowError
  | f => Ret f
  end.

Definition to_float (x : num) : res spec_float :=
  match x with
  | PyInt z => of_int z
  | PyFloat f => Ret f
  end.

Definition sign_of (f : spec_float) : bool :=
  match f with
  | S754_zero s | S754_infinity s | S754_finite s _ _ => s
  | S754_nan => false
  end.

Definition is_zero (f : spec_float) : bool :=
  match f with S754_zero _ => true | _ => false end.

(** C's [x < 0] on doubles *)
Definition is_neg (f : spec_float) : bool := SFltb f (S754_zero false).

(** *** Arithmetic: [+], [-], [*], [/] *)

Definition add (x y : num) : res num :=
  match x, y with
  | PyInt a, PyInt b => Ret (PyInt (a + b))
  | _, _ => a <- to_float x ;; b <- to_float y ;; Ret (PyFloat (SFadd prec emax a b))
  end.

Definition sub (x y : num) : res num :=
  match x, y with
  | PyInt a, PyInt b => Ret (PyInt (a - b))
  | _, _ => a <- to_float x ;; b <- to_float y ;; Ret (PyFloat (SFsub prec emax a b))
  end.

Definition mul (x y : num) : res num :=
  match x, y with
  | PyInt a, PyInt b => Ret (PyInt (a * b))
  | _, _ => a <- to_float x ;; b <- to_float y ;; Ret (PyFloat (SFmul prec emax a b))
  end.

Definition truediv (x y : num) : res num :=
  match x, y with
  | PyInt a, PyInt b =>
      match a, b with
      | _, Z0 => Raise ZeroDivisionError
      | Z0, _ => Ret (PyFloat (S754_zero (b <? 0)))
      | Zpos p, Zpos q | Zneg p, Zneg q =>
          match ratio2SF false p q with
          | S754_infinity _ => Raise OverflowError
          | f => Ret (PyFloat f)
          end
      | Zpos p, Zneg q | Zneg p, Zpos q =>
          match ratio2SF true p q with
          | S754_infinity _ => Raise OverflowError
          | f => Ret (PyFloat f)
          end
      end
  | _, _ =>
      a <- to_float x ;; b <- to_float y ;;
      if is_zero b then Raise ZeroDivisionError
      else Ret (PyFloat (SFdiv prec emax a b))
  end.

(** *** Floor division and remainder *)

(** C's [fmod]: exact, with the sign of the dividend. *)
Definition SFfmod (x y : spec_float) : spec_float :=
  match x, y with
  | S754_nan, _ | _, S754_nan => S754_nan
  | S754_infinity _, _ => S754_nan
  | _, S754_zero _ => S754_nan
  | S754_zero _, _ => x
  | S754_finite _ _ _, S754_infinity _ => x
  | S754_finite sx mx ex, S754_finite _ my ey =>
      let e := Z.min ex ey in
      let X := Zpos mx * 2 ^ (ex - e) in
      let Y := Zpos my * 2 ^ (ey - e) in
      binary_normalize prec emax (cond_Zopp sx (X mod Y)) e sx
  end.

(** C's [floor] *)
Definition SFfloor (x : spec_float) : spec_float :=
  match x with
  | S754_finite s m e =>
      if 0 <=? e then x
      else binary_normalize prec emax (cond_Zopp s (Zpos m) / 2 ^ (- e)) 0 s
  | _ => x
  end.

Definition SFone : spec_float := Z2SF 1.
Definition SFhalf : spec_float := ratio2SF false 1 2.

(** [float_rem] of floatobject.c *)
Definition float_rem (vx wx : spec_float) : res spec_float :=
  if is_zero wx then Raise ZeroDivisionError
  else
    let md := SFfmod vx wx in
    if is_zero md then Ret (S754_zero (sign_of wx))
    else if xorb (is_neg wx) (is_neg md) then Ret (SFadd prec emax md wx)
    else Ret md.

(** [float_floor_div] of floatobject.c, through [_float_div_mod] *)
Definition float_floor_div (vx wx : spec_float) : res spec_float :=
  if is_zero wx then Raise ZeroDivisionError
  else
    let md := SFfmod vx wx in
    let div := SFdiv prec emax (SFsub prec emax vx md) wx in
    let div :=
      if negb (is_zero md) && xorb (is_neg wx) (is_neg md)
      then SFsub prec emax div SFone else div in
    if is_zero div then Ret (S754_zero (sign_of (SFdiv prec emax vx wx)))
    else
      let fl := SFfloor div in
      if SFltb SFhalf (SFsub prec emax div fl)
      then Ret (SFadd prec emax fl SFone) else Ret fl.

Definition floordiv (x y : num) : res num :=
  match x, y with
  | PyInt a, PyInt b =>
      if b =? 0 then Raise ZeroDivisionError else Ret (PyInt (a / b))
  | _, _ =>
      a <- to_float x ;; b <- to_float y ;;
      r <- float_floor_div a b ;; Ret (PyFloat r)
  end.

Definition mod_ (x y : num) : res num :=
  match x, y with
  | PyInt a, PyInt b =>
      if b =? 0 then Raise ZeroDivisionError else Ret (PyInt (a mod b))
  | _, _ =>
      a <- to_float x ;; b <- to_float y ;;
      r <- float_rem a b ;; Ret (PyFloat r)
  end.

(** [int(x)]: truncation towards zero for a float. *)
Definition to_int (x : num) : res Z :=
  match x with
  | PyInt z => Ret z
  | PyFloat S754_nan => Raise ValueError
  | PyFloat (S754_infinity _) => Raise OverflowError
  | PyFloat (S754_zero _) => Ret 0
  | PyFloat (S754_finite s m e) =>
      Ret (if 0 <=? e then cond_Zopp s (Zpos m * 2 ^ e)
           else cond_Zopp s (Zpos m / 2 ^ (- e)))
  end.

(** *** Comparisons: exact, also between an int and a float *)

Inductive ext : Type :=
| NegInf
| Fin (q : Q)
| PosInf.

Definition dyadic (m e : Z) : Q :=
  if 0 <=? e then inject_Z (m * 2 ^ e)
  else Qmake m (Z.to_pos (2 ^ (- e))).

(** The value of a number; [None] for NaN. *)
Definition value (x : num) : option ext :=
  match x with
  | PyInt z => Some (Fin (inject_Z z))
  | PyFloat S754_nan => None
  | PyFloat (S754_infinity s) => Some (if s then NegInf else PosInf)
  | PyFloat (S754_zero _) => Some (Fin 0%Q)
  | PyFloat (S754_finite s m e) => Some (Fin (dyadic (cond_Zopp s (Zpos m)) e))
  end.

Definition ext_compare (a b : ext) : comparison :=
  match a, b with
  | NegInf, NegInf => Eq
  | NegInf, _ => Lt
  | _, NegInf => Gt
  | PosInf, PosInf => Eq
  | PosInf, _ => Gt
  | _, PosInf => Lt
  | Fin p, Fin q => Qcompare p q
  end.

Definition compare (x y : num) : option comparison :=
  match value x, value y with
  | Some a, Some b => Some (ext_compare a b)
  | _, _ => None
  end.

(** [x < y], [x > y], [x >= y]: false as soon as a NaN is involved. *)
Definition lt (x y : num) : bool :=
  match compare x y with Some Lt => true | _ => false end.
Definition gt (x y : num) : bool :=
  match compare x y with Some Gt => true | _ => false end.
Definition ge (x y : num) : bool :=
  match compare x y with Some (Gt | Eq) => true | _ => false end.

End PyNum.

(** ** Numeric literals: [int(s)] and [float(s)] *)

Module PyParse.
Import PyStr PyNum.

Definition is_digit (c : ascii) : bool :=
  let n := code c in ((48 <=? n) && (n <=? 57))%N.

Definition digit_value (c : ascii) : Z := Z.of_N (code c) - 48.

(** Decimal digits with single underscores between digits. *)
Fixpoint digits_value (s : string) (acc : Z) (after_digit : bool) : option Z :=
  match s with
  | EmptyString => if after_digit then Some acc else None
  | String c s' =>
      if Ascii.eqb c "_" then
        if after_digit then digits_value s' acc false else None
      else if is_digit c then digits_value s' (10 * acc + digit_value c) true
      else None
  end.

Definition split_sign (s : string) : bool * string :=
  match s with
  | String "-" r => (true, r)
  | String "+" r => (false, r)
  | _ => (false, s)
  end.

(** [int(s)] in base 10: [ValueError] unless [s] is optional whitespace,
    an optional sign and a digit string. *)
Definition int_of_string (s : string) : res Z :=
  let '(neg, body) := split_sign (strip_by is_cspace s) in
  match digits_value body 0 false with
  | Some n => Ret (if neg then - n else n)
  | None => Raise ValueError
  end.

(** Underscores of a float literal: each one between two digits. *)
Fixpoint drop_underscores (s : string) (prev : ascii) : option string :=
  match s with
  | EmptyString => if Ascii.eqb prev "_" then None else Some EmptyString
  | String c s' =>
      if Ascii.eqb c "_" then
        if is_digit prev then drop_underscores s' c else None
      else if Ascii.eqb prev "_" && negb (is_digit c) then None
      else option_map (String c) (drop_underscores s' c)
  end.

(** A maximal run of digits: its value, its length and what follows. *)
Fixpoint read_digits (s : string) (acc : Z) (n : Z) : Z * Z * string :=
  match s with
  | String c s' =>
      if is_digit c then read_digits s' (10 * acc + digit_value c) (n + 1)
      else (acc, n, s)
  | EmptyString => (acc, n, s)
  end.

(** The double nearest to [d * 10 ^ k], with sign [neg]. *)
Definition decimal2SF (neg : bool) (d k : Z) : spec_float :=
  match d with
  | Zpos p =>
      if 0 <=? k then binary_normalize prec emax (cond_Zopp neg (d * 10 ^ k)) 0 neg
      else ratio2SF neg p (Z.to_pos (10 ^ (- k)))
  | _ => S754_zero neg
  end.

Definition read_exponent (s : string) : option Z :=
  match s with
  | EmptyString => Some 0
  | String c r =>
      if Ascii.eqb (lower_char c) "e" then
        let '(neg, r') := split_sign r in
        match read_digits r' 0 0 with
        | (x, nx, EmptyString) =>
            if 0 <? nx then Some (cond_Zopp neg x) else None
        | _ => None
        end
      else None
  end.

Definition read_decimal (neg : bool) (s : string) : option spec_float :=
  let '(a, na, r1) := read_digits s 0 0 in
  let '(d, nb, r2) :=
    match r1 with
    | String "." r => let '(d, nb, r2) := read_digits r a 0 in (d, nb, r2)
    | _ => (a, 0, r1)
    end in
  if 0 <? na + nb then
    match read_exponent r2 with
    | Some x => Some (decimal2SF neg d (x - nb))
    | None => None
    end
  else None.

(** [float(s)]: [inf], [infinity] and [nan] in any case, or a decimal
    literal with an optional exponent; [ValueError] otherwise. *)
Definition float_of_string (s : string) : res spec_float :=
  match drop_underscores (strip_by is_cspace s) " " with
  | None => Raise ValueError
  | Some t =>
      let '(neg, body) := split_sign t in
      let w := lower body in
      if String.eqb w "inf" || String.eqb w "infinity" then Ret (S754_infinity neg)
      else if String.eqb w "nan" then Ret S754_nan
      else
        match read_decimal neg body with
        | Some f => Ret f
        | None => Raise ValueError
        end
  end.

End PyParse.

(** ** Format specifications [02d] and [06.3f] *)

Module PyFmt.
Import PyStr PyNum.

(** [str(n)] for [n >= 0] *)
Definition decimal (n : Z) : string :=
  DecimalString.NilZero.string_of_uint (N.to_uint (Z.to_N n)).

Fixpoint zeros (n : nat) : string :=
  match n with
  | O => EmptyString
  | S n' => String "0" (zeros n')
  end.

(** Zero fill after the sign, up to [width] characters. *)
Definition zero_pad (width : nat) (sign body : string) : string :=
  (sign ++ zeros (width - String.length sign - String.length body) ++ body)%string.

Definition minus (neg : bool) : string := if neg then "-" else "".

(** [f"{n:02d}"] *)
Definition format_02d (n : Z) : string :=
  zero_pad 2 (minus (n <? 0)) (decimal (Z.abs n)).

Definition round_half_even (a b : Z) : Z :=
  let q := a / b in
  match (2 * (a mod b) ?= b) with
  | Lt => q
  | Gt => q + 1
  | Eq => if Z.even q then q else q + 1
  end.

(** [m * 2 ^ e] in thousandths, rounded to nearest even. *)
Definition thousandths (m : positive) (e : Z) : Z :=
  if 0 <=? e then Zpos m * 2 ^ e * 1000
  else round_half_even (Zpos m * 1000) (2 ^ (- e)).

Definition fixed3 (n : Z) : string :=
  (decimal (n / 1000) ++ "." ++ zero_pad 3 "" (decimal (n mod 1000)))%string.

(** [f"{x:06.3f}"]; an int is converted to float first. *)
Definition format_06_3f (x : num) : res string :=
  f <- to_float x ;;
  Ret match f with
      | S754_nan => zero_pad 6 "" "nan"
      | S754_infinity s => zero_pad 6 (minus s) "inf"
      | S754_zero s => zero_pad 6 (minus s) (fixed3 0)
      | S754_finite s m e => zero_pad 6 (minus s) (fixed3 (thousandths m e))
      end.

End PyFmt.

(** ** The program: [app.py] *)

Import PyStr.
Import PyNum (num, PyInt, PyFloat).

(** [30.0] *)
Definition thirty : spec_float := Eval vm_compute in PyNum.Z2SF 30.

(** [map(f, xs)] consumed in order; the first exception ends it. *)
Fixpoint map_res {A B : Type} (f : A -> res B) (xs : list A) : res (list B) :=
  match xs with
  | [] => Ret []
  | x :: xs' => y <- f x ;; ys <- map_res f xs' ;; Ret (y :: ys)
  end.

(** [hours * 3600 + minutes * 60 + seconds] *)
Definition hms_seconds (hours minutes seconds : Z) : res num :=
  a <- PyNum.mul (PyInt hours) (PyInt 3600) ;;
  b <- PyNum.mul (PyInt minutes) (PyInt 60) ;;
  c <- PyNum.add a b ;;
  PyNum.add c (PyInt seconds).

Definition parse_timecode (time_str : string) : res num :=
  let time_str := strip time_str in
  if contains ":" time_str then
    let parts := split ":" time_str in
    if (List.length parts =? 4)%nat then
      try_except
        (fields <- map_res PyParse.int_of_string parts ;;
         match fields with
         | [hours; minutes; seconds; frames] =>
             hms <- hms_seconds hours minutes seconds ;;
             fr <- PyNum.truediv (PyInt frames) (PyFloat thirty) ;;
             PyNum.add hms fr
         | _ => Raise ValueError
         end)
        value_or_type_error (Ret (PyInt 0))
    else if (List.length parts =? 3)%nat then
      try_except
        (fields <- map_res PyParse.int_of_string parts ;;
         match fields with
         | [hours; minutes; seconds] => hms_seconds hours minutes seconds
         | _ => Raise ValueError
         end)
        value_or_type_error (Ret (PyInt 0))
    else Ret (PyInt 0)
  else
    try_except
      (f <- PyParse.float_of_string time_str ;; Ret (PyFloat f))
      value_or_type_error (Ret (PyInt 0)).

Definition format_timecode (seconds : num) : res string :=
  h <- PyNum.floordiv seconds (PyInt 3600) ;;
  hours <- PyNum.to_int h ;;
  r <- PyNum.mod_ seconds (PyInt 3600) ;;
  m <- PyNum.floordiv r (PyInt 60) ;;
  minutes <- PyNum.to_int m ;;
  secs <- PyNum.mod_ seconds (PyInt 60) ;;
  ss <- PyFmt.format_06_3f secs ;;
  Ret (PyFmt.format_02d hours ++ ":" ++ PyFmt.format_02d minutes ++ ":" ++ ss)%string.

Definition normalize_column_name (column_name : string) : string :=
  strip (lower column_name).

(** A row gives, for a column label, the text [str(row[label])] of its
    cell; a label it does not hold is a [KeyError].  The rows come in
    positional order, which is the index [df.iterrows()] yields. *)
Definition row : Type := list (string * string).

Record dataframe : Type := {
  columns : list string;
  rows : list row
}.

Fixpoint row_get (r : row) (label : string) : res string :=
  match r with
  | [] => Raise KeyError
  | (l, v) :: r' => if String.eqb l label then Ret v else row_get r' label
  end.

Definition source_keywords : list string :=
  ["script"; "line"; "text"; "transcription"].

Definition is_source_column (col : string) : bool :=
  let normalized_col := normalize_column_name col in
  existsb (fun keyword => contains keyword normalized_col) source_keywords.

Definition find_source_column (df : dataframe) : option string :=
  List.find is_source_column (columns df).

(** [x in [k1, ..., kn]] on strings *)
Definition str_in (x : string) (l : list string) : bool :=
  existsb (String.eqb x) l.

(** The three columns assigned by the loop over [df.columns]. *)
Record required_cols : Type := {
  speaker_col : option string;
  start_time_col : option string;
  end_time_col : option string
}.

Definition no_cols : required_cols :=
  {| speaker_col := None; start_time_col := None; end_time_col := None |}.

(** One iteration of [for col in df.columns]. *)
Definition assign_col (st : required_cols) (col : string) : required_cols :=
  let normalized_col := normalize_column_name col in
  if str_in normalized_col ["speaker"] then
    {| speaker_col := Some col;
       start_time_col := start_time_col st;
       end_time_col := end_time_col st |}
  else if str_in normalized_col ["start_time"; "starttime"; "start time"] then
    {| speaker_col := speaker_col st;
       start_time_col := Some col;
       end_time_col := end_time_col st |}
  else if str_in normalized_col ["end_time"; "endtime"; "end time"] then
    {| speaker_col := speaker_col st;
       start_time_col := start_time_col st;
       end_time_col := Some col |}
  else st.

Definition find_required_cols (df : dataframe) : required_cols :=
  fold_left assign_col (columns df) no_cols.

(** [not x] for a value that is [None] or a string. *)
Definition falsy (x : option string) : bool :=
  match x with
  | None => true
  | Some s => String.eqb s ""
  end.

(** [df.columns = [col.strip() for col in df.columns]] *)
Definition strip_columns (df : dataframe) : dataframe :=
  {| columns := map strip (columns df); rows := rows df |}.

Module Segment.
Record t : Type := {
  id : nat;
  speaker : string;
  start_time : num;
  end_time : num;
  start_time_formatted : string;
  end_time_formatted : string;
  text : string;
  duration : num
}.
End Segment.

(** The response of the route: the JSON body of a success, or one of the
    two 400 answers built after the CSV is read.  The text of the second
    one is ['Error processing CSV: ' + str(e)]; the exception is kept. *)
Inductive response : Type :=
| Success (segments : list Segment.t) (speakers : list string) (total_duration : num)
| MissingColumns (error : string)
| ProcessingError (e : exn).

Definition missing_cols (speaker_col start_time_col end_time_col source_col : option string)
  : list string :=
  ((if falsy speaker_col then ["speaker"] else []) ++
   (if falsy start_time_col then ["start_time"] else []) ++
   (if falsy end_time_col then ["end_time"] else []) ++
   (if falsy source_col then ["source (script/line/text/transcription)"] else []))%list.

(** The body of the [try] of one loop iteration. *)
Definition read_row (start_time_col end_time_col speaker_col source_col : string) (r : row)
  : res (num * num * string * string) :=
  c1 <- row_get r start_time_col ;;
  start_time <- parse_timecode c1 ;;
  c2 <- row_get r end_time_col ;;
  end_time <- parse_timecode c2 ;;
  speaker <- row_get r speaker_col ;;
  text <- row_get r source_col ;;
  Ret (start_time, end_time, speaker, text).

Definition make_segment (index : nat) (speaker : string) (start_time end_time : num)
  (text : string) : res Segment.t :=
  sf <- format_timecode start_time ;;
  ef <- format_timecode end_time ;;
  d <- PyNum.sub end_time start_time ;;
  Ret {| Segment.id := index;
         Segment.speaker := speaker;
         Segment.start_time := start_time;
         Segment.end_time := end_time;
         Segment.start_time_formatted := sf;
         Segment.end_time_formatted := ef;
         Segment.text := text;
         Segment.duration := d |}.

(** [speakers.add(speaker)] *)
Definition set_add (x : string) (s : list string) : list string :=
  if str_in x s then s else (s ++ [x])%list.

(** [for index, row in df.iterrows()] *)
Fixpoint build_segments (start_time_col end_time_col speaker_col source_col : string)
  (index : nat) (rs : list row) (segments : list Segment.t) (speakers : list string)
  : res (list Segment.t * list string) :=
  match rs with
  | [] => Ret (segments, speakers)
  | r :: rest =>
      let continue := build_segments start_time_col end_time_col speaker_col source_col
                        (S index) rest in
      match read_row start_time_col end_time_col speaker_col source_col r with
      | Raise _ => continue segments speakers
      | Ret (start_time, end_time, speaker, text) =>
          if PyNum.ge start_time (PyInt 0) && PyNum.gt end_time start_time then
            seg <- make_segment index speaker start_time end_time text ;;
            continue (segments ++ [seg])%list (set_add speaker speakers)
          else continue segments speakers
      end
  end.

(** [list.sort(key=...)]: a stable sort that compares keys with [<].  Each
    element goes in front of the first one whose key is not below its own;
    on keys that [<] orders totally every stable sort returns this list. *)
Fixpoint insert_by {A : Type} (key : A -> num) (x : A) (l : list A) : list A :=
  match l with
  | [] => [x]
  | y :: l' =>
      if PyNum.lt (key y) (key x) then y :: insert_by key x l'
      else x :: y :: l'
  end.

Definition sort_by {A : Type} (key : A -> num) (l : list A) : list A :=
  fold_right (insert_by key) [] l.

(** [max(xs) if xs else 0] *)
Definition max_or_zero (xs : list num) : num :=
  match xs with
  | [] => PyInt 0
  | x :: xs' => fold_left (fun m y => if PyNum.gt y m then y else m) xs' x
  end.

(** The route after [df = pd.read_csv(file)]; the checks of the uploaded
    file that come before are not modelled. *)
Definition upload_csv (df : dataframe) : response :=
  let df := strip_columns df in
  let req := find_required_cols df in
  let source_col := find_source_column df in
  if falsy (speaker_col req) || falsy (start_time_col req)
     || falsy (end_time_col req) || falsy source_col then
    MissingColumns
      ("Missing required columns: " ++
       join ", " (missing_cols (speaker_col req) (start_time_col req)
                               (end_time_col req) source_col))%string
  else
    match speaker_col req, start_time_col req, end_time_col req, source_col with
    | Some speaker_c, Some start_c, Some end_c, Some source_c =>
        match build_segments start_c end_c speaker_c source_c 0 (rows df) [] [] with
        | Raise e => ProcessingError e
        | Ret (segments, speakers) =>
            let segments := sort_by Segment.start_time segments in
            Success segments speakers (max_or_zero (map Segment.end_time segments))
        end
    | _, _, _, _ => ProcessingError TypeError
    end.

(** ** The other functions of [app.py] *)




(** [s.endswith(suffix)] *)
Fixpoint endswith (suffix s : string) : bool :=
  String.eqb suffix s ||
  match s with
  | EmptyString => false
  | String _ s' => endswith suffix s'
  end.

(** The entry [request.files['csv_file']]: the name of the uploaded file
    and what [pd.read_csv] makes of it. *)
Record csv_upload : Type := {
  filename : string;
  read_csv : res dataframe
}.

(** The answers of the route [/upload-csv]: one of the three 400 answers
    given before the file is read, or the answer of [upload_csv]. *)
Inductive route_response : Type :=
| BadRequest (error : string)
| Processed (r : response).

(** The whole route [/upload-csv]: the checks of the upload, [pd.read_csv]
    inside the outer [try], then [upload_csv]. *)
Definition upload_csv_route (csv_file : option csv_upload) : route_response :=
  match csv_file with
  | None => BadRequest "No CSV file provided"
  | Some file =>
      if String.eqb (filename file) "" then BadRequest "No file selected"
      else if negb (endswith ".csv" (lower (filename file))) then
        BadRequest "Please upload a CSV file. Only .csv files are allowed."
      else
        match read_csv file with
        | Raise e => Processed (ProcessingError e)
        | Ret df => Processed (upload_csv df)
        end
  end.

(** [key in d] for a dict of texts *)
Fixpoint has_key (d : row) (key : string) : bool :=
  match d with
  | [] => false
  | (k, _) :: d' => String.eqb k key || has_key d' key
  end.

(** [d.get(key, default)] *)
Definition get_default (d : row) (key default : string) : string :=
  match row_get d key with
  | Ret v => v
  | Raise _ => default
  end.

(** The dict [row_data] that [export_csv] builds for one segment of the
    request; a segment is the JSON object of the request, a dict of texts. *)
Definition export_row (include_voices : bool) (segment : row) : res row :=
  speaker <- row_get segment "speaker" ;;
  start_time <- row_get segment "start_time_formatted" ;;
  end_time <- row_get segment "end_time_formatted" ;;
  transcription <- row_get segment "text" ;;
  let row_data := [("speaker", speaker); ("start_time", start_time);
                   ("end_time", end_time); ("transcription", transcription)] in
  if include_voices && has_key segment "voice_id" then
    Ret (row_data ++ [("voice_id", get_default segment "voice_id" "")])%list
  else Ret row_data.

(** [pd.DataFrame(df_data)] for a list of dicts: the columns are the keys in
    the order of their first appearance. *)
Definition DataFrame (df_data : list row) : dataframe :=
  {| columns := fold_left (fun cols r => fold_left (fun cs k => set_add k cs) (map fst r) cols)
                          df_data [];
     rows := df_data |}.

(** The answers of the route [/export-csv]: the data frame that is written
    with [to_csv] and sent, or one of the two 400 answers. *)
Inductive export_response : Type :=
| Exported (df : dataframe)
| NoSegments (error : string)
| ExportError (e : exn).

(** The route [/export-csv] on the [segments] and [include_voices] of the
    request. *)
Definition export_csv (segments : list row) (include_voices : bool) : export_response :=
  match segments with
  | [] => NoSegments "No segments to export"
  | _ =>
      match map_res (export_row include_voices) segments with
      | Raise e => ExportError e
      | Ret df_data => Exported (DataFrame df_data)
      end
  end.


(** ** Notions used to state the properties *)

(** The four logical roles of the column resolver, in the order in which
    [upload_csv] reports them, and the keyword test of each. *)
Inductive role : Type :=
| Speaker
| StartTime
| EndTime
| SourceText.

Definition all_roles : list role := [Speaker; StartTime; EndTime; SourceText].

Definition role_label (r : role) : string :=
  match r with
  | Speaker => "speaker"
  | StartTime => "start_time"
  | EndTime => "end_time"
  | SourceText => "source (script/line/text/transcription)"
  end.

(** [s] occurs inside [t]. *)
Definition substring_of (s t : string) : Prop :=
  exists a b, t = (a ++ s ++ b)%string.

Definition role_matches (r : role) (header : string) : Prop :=
  let n := normalize_column_name header in
  match r with
  | Speaker => n = "speaker"
  | StartTime => n = "start_time" \/ n = "starttime" \/ n = "start time"
  | EndTime => n = "end_time" \/ n = "endtime" \/ n = "end time"
  | SourceText =>
      substring_of "script" n \/ substring_of "line" n \/
      substring_of "text" n \/ substring_of "transcription" n
  end.

(** The keyword tests of the loop over [df.columns], one per branch. *)
Definition is_speaker (col : string) : bool :=
  str_in (normalize_column_name col) ["speaker"].
Definition is_start_time (col : string) : bool :=
  str_in (normalize_column_name col) ["start_time"; "starttime"; "start time"].
Definition is_end_time (col : string) : bool :=
  str_in (normalize_column_name col) ["end_time"; "endtime"; "end time"].

Definition role_test (r : role) : string -> bool :=
  match r with
  | Speaker => is_speaker
  | StartTime => is_start_time
  | EndTime => is_end_time
  | SourceText => is_source_column
  end.

(** The roles that no header resolves, in reporting order. *)
Definition unresolved_roles (headers : list string) : list role :=
  filter (fun r => negb (existsb (role_test r) headers)) all_roles.

(** A role is resolved by a header collection when some header matches it. *)
Definition role_resolved (headers : list string) (r : role) : Prop :=
  Exists (role_matches r) headers.


(** [hours*3600 + minutes*60 + seconds + frames/30.0] in Python's arithmetic. *)
Definition four_field_seconds (h m s f : Z) : res num :=
  fr <- PyNum.truediv (PyInt f) (PyFloat thirty) ;;
  PyNum.add (PyInt (h * 3600 + m * 60 + s)) fr.


(** A number that is not below zero: [x < 0] is false. *)
Definition not_negative (x : num) : Prop := PyNum.lt x (PyInt 0) = false.

(** A number with a rational value: neither NaN nor an infinity. *)
Definition finite (x : num) : Prop := exists q, PyNum.value x = Some (PyNum.Fin q).

(** [v] is within 0.0005 of the whole minute [60 * k]. *)
Definition near_minute (v : num) (k : Z) : Prop :=
  exists q, PyNum.value v = Some (PyNum.Fin q) /\
            (inject_Z (60 * k) - (5 # 10000) <= q <= inject_Z (60 * k) + (5 # 10000))%Q.

(** Text that is all whitespace. *)
Definition blank (ws : string) : Prop := all_chars is_space ws = true.

(** Text without a minus sign. *)
Definition minus_free (s : string) : bool :=
  all_chars (fun c => negb (Ascii.eqb c "-")) s.

(** A character that is neither whitespace nor a colon. *)
Definition field_char (c : ascii) : bool :=
  negb (is_space c) && negb (Ascii.eqb c ":").

(** The characters an integer literal is made of. *)
Definition int_char (c : ascii) : bool :=
  PyParse.is_digit c || Ascii.eqb c "_" || is_cspace c ||
  Ascii.eqb c "+" || Ascii.eqb c "-".

(** Text without a colon. *)
Definition no_colon (s : string) : Prop := contains ":" s = false.

(** Input that neither colon form nor the decimal form accepts. *)
Definition unparseable (time_str : string) : Prop :=
  let t := strip time_str in
  if contains ":" t then
    let parts := split ":" t in
    (List.length parts <> 3%nat /\ List.length parts <> 4%nat) \/
    Exists (fun p => PyParse.int_of_string p = Raise ValueError) parts
  else PyParse.float_of_string t = Raise ValueError.


(** The test a row passes to become a segment. *)
Definition guarded (g : Segment.t) : Prop :=
  PyNum.ge (Segment.start_time g) (PyInt 0) = true /\
  PyNum.gt (Segment.end_time g) (Segment.start_time g) = true.

(** The test of the loop on one row: its cells are read and parsed without
    an exception and [start_time >= 0 and end_time > start_time] holds. *)
Definition row_passes (start_time_col end_time_col speaker_col source_col : string)
  (r : row) : bool :=
  match read_row start_time_col end_time_col speaker_col source_col r with
  | Ret (start_time, end_time, _, _) =>
      PyNum.ge start_time (PyInt 0) && PyNum.gt end_time start_time
  | Raise _ => false
  end.


(** The fields of a segment agree: the formatted times are those of its
    times, the duration is their difference, and the times are finite. *)
Definition consistent (g : Segment.t) : Prop :=
  format_timecode (Segment.start_time g) = Ret (Segment.start_time_formatted g) /\
  format_timecode (Segment.end_time g) = Ret (Segment.end_time_formatted g) /\
  PyNum.sub (Segment.end_time g) (Segment.start_time g) = Ret (Segment.duration g) /\
  finite (Segment.start_time g) /\ finite (Segment.end_time g).

(** Text that [format_timecode] produces. *)
Definition formatted (t : string) : Prop := exists v, format_timecode v = Ret t.

(** The cell of [label] in the row [r] is a formatted timecode. *)
Definition formatted_cell (r : row) (label : string) : Prop :=
  exists t, row_get r label = Ret t /\ formatted t.

(** A segment of the request that holds the four fields [export_csv]
    reads. *)
Definition exportable (segment : row) : Prop :=
  has_key segment "speaker" = true /\
  has_key segment "start_time_formatted" = true /\
  has_key segment "end_time_formatted" = true /\
  has_key segment "text" = true.

(** The row [r] carries the fields of [segment] under the exported names,
    and nothing else. *)
Definition exported_from (include_voices : bool) (segment r : row) : Prop :=
  row_get r "speaker" = row_get segment "speaker" /\
  row_get r "start_time" = row_get segment "start_time_formatted" /\
  row_get r "end_time" = row_get segment "end_time_formatted" /\
  row_get r "transcription" = row_get segment "text" /\
  has_key r "voice_id" = include_voices && has_key segment "voice_id" /\
  (has_key r "voice_id" = true -> row_get r "voice_id" = row_get segment "voice_id") /\
  (forall k, has_key r k = true ->
             In k ["speaker"; "start_time"; "end_time"; "transcription"; "voice_id"]).

(** The four cells that [export_csv] writes for every segment. *)
Definition base_row (s1 s2 s3 s4 : string) : row :=
  [("speaker", s1); ("start_time", s2); ("end_time", s3); ("transcription", s4)].

(** The column labels of an exported data frame, without and with voices. *)
Definition export_columns : list string :=
  ["speaker"; "start_time"; "end_time"; "transcription"].
Definition export_columns_with_voices : list string :=
  ["speaker"; "start_time"; "end_time"; "transcription"; "voice_id"].

(** Segments in ascending order of row index. *)
Definition in_row_order (a b : Segment.t) : Prop :=
  (Segment.id a < Segment.id b)%nat.


(** ** Facts about strings *)

Section StringFacts.

Lemma all_chars_app (p : ascii -> bool) (a b : string) :
  all_chars p (a ++ b) = all_chars p a && all_chars p b.
Proof.
  induction a as [|c a IH]; simpl; [reflexivity|].
  rewrite IH. apply andb_assoc.
Qed.

Lemma all_chars_impl (p q : ascii -> bool) (s : string) :
  (forall c, p c = true -> q c = true) ->
  all_chars p s = true -> all_chars q s = true.
Proof.
  intros Hpq. induction s as [|c s IH]; simpl; [reflexivity|].
  intros H. apply andb_true_iff in H as [Hc Hs].
  rewrite (Hpq _ Hc), (IH Hs). reflexivity.
Qed.

Lemma rstrip_by_none (p : ascii -> bool) (s : string) :
  all_chars (fun c => negb (p c)) s = true -> rstrip_by p s = s.
Proof.
  induction s as [|c s IH]; simpl; [reflexivity|].
  intros H. apply andb_true_iff in H as [Hc Hs].
  rewrite (IH Hs). apply negb_true_iff in Hc. rewrite Hc.
  destruct s; reflexivity.
Qed.

Lemma lstrip_by_none (p : ascii -> bool) (s : string) :
  all_chars (fun c => negb (p c)) s = true -> lstrip_by p s = s.
Proof.
  destruct s as [|c s]; simpl; [reflexivity|].
  intros H. apply andb_true_iff in H as [Hc _].
  apply negb_true_iff in Hc. rewrite Hc. reflexivity.
Qed.

Lemma strip_by_none (p : ascii -> bool) (s : string) :
  all_chars (fun c => negb (p c)) s = true -> strip_by p s = s.
Proof.
  intros H. unfold strip_by. rewrite (lstrip_by_none _ _ H).
  apply rstrip_by_none, H.
Qed.

Lemma prefix_app (s t : string) : prefix s (s ++ t) = true.
Proof.
  induction s as [|c s IH]; simpl; [destruct t; reflexivity|].
  destruct (ascii_dec c c); [exact IH | congruence].
Qed.

Lemma prefix_inv (s t : string) :
  prefix s t = true -> exists b, t = (s ++ b)%string.
Proof.
  revert t. induction s as [|c s IH]; intros t H.
  - exists t. reflexivity.
  - destruct t as [|d t]; simpl in H; [discriminate|].
    destruct (ascii_dec c d) as [->|]; [|discriminate].
    destruct (IH _ H) as [b ->]. exists b. reflexivity.
Qed.

Lemma contains_prefix (s t : string) :
  prefix s t = true -> contains s t = true.
Proof.
  intros H. destruct t; cbn [contains]; rewrite H; reflexivity.
Qed.

Lemma contains_app (s a b : string) : contains s (a ++ s ++ b) = true.
Proof.
  induction a as [|c a IH].
  - change (contains s (s ++ b) = true). apply contains_prefix, prefix_app.
  - cbn [append contains]. rewrite IH. apply orb_true_r.
Qed.

Lemma contains_inv (s t : string) :
  contains s t = true -> substring_of s t.
Proof.
  induction t as [|c t IH]; cbn [contains]; intros H.
  - rewrite orb_false_r in H. destruct (prefix_inv _ _ H) as [b Hb].
    exists EmptyString, b. exact Hb.
  - apply orb_true_iff in H as [H|H].
    + destruct (prefix_inv _ _ H) as [b Hb]. exists EmptyString, b. exact Hb.
    + destruct (IH H) as (a & b & ->). exists (String c a), b. reflexivity.
Qed.

Lemma contains_iff (s t : string) :
  contains s t = true <-> substring_of s t.
Proof.
  split; [apply contains_inv|].
  intros (a & b & ->). apply contains_app.
Qed.

Lemma contains_char (c : ascii) (s : string) :
  contains (String c EmptyString) s = negb (all_chars (fun x => negb (Ascii.eqb x c)) s).
Proof.
  induction s as [|d s IH]; [reflexivity|].
  cbn [contains all_chars prefix]. rewrite IH.
  destruct (ascii_dec c d) as [->|Hn].
  - rewrite Ascii.eqb_refl. destruct s; reflexivity.
  - assert (Ascii.eqb d c = false) as -> by (apply Ascii.eqb_neq; congruence).
    reflexivity.
Qed.

Lemma no_colon_chars (s : string) :
  no_colon s <-> all_chars (fun x => negb (Ascii.eqb x ":")) s = true.
Proof.
  unfold no_colon. rewrite contains_char.
  destruct (all_chars _ s); simpl; split; congruence.
Qed.

Lemma split_none (sep : ascii) (a : string) :
  all_chars (fun x => negb (Ascii.eqb x sep)) a = true -> split sep a = [a].
Proof.
  induction a as [|c a IH]; simpl; [reflexivity|].
  intros H. apply andb_true_iff in H as [Hc Ha].
  apply negb_true_iff in Hc. rewrite Hc, (IH Ha). reflexivity.
Qed.

Lemma split_app (sep : ascii) (a b : string) :
  all_chars (fun x => negb (Ascii.eqb x sep)) a = true ->
  split sep (a ++ String sep b) = a :: split sep b.
Proof.
  induction a as [|c a IH]; simpl.
  - intros _. rewrite Ascii.eqb_refl. reflexivity.
  - intros H. apply andb_true_iff in H as [Hc Ha].
    apply negb_true_iff in Hc. rewrite Hc, (IH Ha). reflexivity.
Qed.



End StringFacts.
Section NormalizeFacts.

Lemma lower_char_space (c : ascii) : is_space (lower_char c) = is_space c.
Proof. destruct c as [[] [] [] [] [] [] [] []]; reflexivity. Qed.





Lemma lower_lstrip (s : string) :
  lower (lstrip_by is_space s) = lstrip_by is_space (lower s).
Proof.
  unfold lower. induction s as [|c s IH]; cbn [map_chars lstrip_by]; [reflexivity|].
  rewrite lower_char_space. destruct (is_space c); [exact IH | reflexivity].
Qed.

Lemma lower_rstrip (s : string) :
  lower (rstrip_by is_space s) = rstrip_by is_space (lower s).
Proof.
  unfold lower. induction s as [|c s IH]; cbn [map_chars rstrip_by]; [reflexivity|].
  rewrite <- IH, lower_char_space.
  destruct (rstrip_by is_space s); cbn [map_chars]; [destruct (is_space c)|]; reflexivity.
Qed.

Lemma lower_strip (s : string) : lower (strip s) = strip (lower s).
Proof.
  unfold strip, strip_by. rewrite lower_rstrip, lower_lstrip. reflexivity.
Qed.

Lemma rstrip_blank (p : ascii -> bool) (s : string) :
  all_chars p s = true -> rstrip_by p s = EmptyString.
Proof.
  induction s as [|c s IH]; simpl; [reflexivity|].
  intros H. apply andb_true_iff in H as [Hc Hs].
  rewrite (IH Hs), Hc. reflexivity.
Qed.

Lemma rstrip_empty_inv (p : ascii -> bool) (s : string) :
  rstrip_by p s = EmptyString -> all_chars p s = true.
Proof.
  induction s as [|c s IH]; simpl; [reflexivity|].
  destruct (rstrip_by p s); [|discriminate].
  destruct (p c); [|discriminate]. intros _. apply IH. reflexivity.
Qed.

Lemma lstrip_blank (p : ascii -> bool) (s : string) :
  all_chars p s = true -> lstrip_by p s = EmptyString.
Proof.
  induction s as [|c s IH]; simpl; [reflexivity|].
  intros H. apply andb_true_iff in H as [Hc Hs]. rewrite Hc. exact (IH Hs).
Qed.

Lemma lstrip_app_blank (p : ascii -> bool) (ws s : string) :
  all_chars p ws = true -> lstrip_by p (ws ++ s) = lstrip_by p s.
Proof.
  induction ws as [|c ws IH]; simpl; [reflexivity|].
  intros H. apply andb_true_iff in H as [Hc Hs]. rewrite Hc. exact (IH Hs).
Qed.

Lemma rstrip_app_blank (p : ascii -> bool) (s ws : string) :
  all_chars p ws = true -> rstrip_by p (s ++ ws) = rstrip_by p s.
Proof.
  intros H. induction s as [|c s IH]; simpl.
  - apply rstrip_blank, H.
  - rewrite IH. reflexivity.
Qed.

Lemma rstrip_idem (p : ascii -> bool) (s : string) :
  rstrip_by p (rstrip_by p s) = rstrip_by p s.
Proof.
  induction s as [|c s IH]; [reflexivity|]. cbn [rstrip_by].
  destruct (rstrip_by p s) as [|d r] eqn:E.
  - destruct (p c) eqn:Hc; cbn [rstrip_by]; [reflexivity|]. rewrite Hc. reflexivity.
  - change (rstrip_by p (String c (String d r)))
      with (match rstrip_by p (String d r) with
            | EmptyString => if p c then EmptyString else String c EmptyString
            | r0 => String c r0
            end).
    rewrite IH. reflexivity.
Qed.

Lemma lstrip_rstrip (p : ascii -> bool) (s : string) :
  lstrip_by p (rstrip_by p s) = rstrip_by p (lstrip_by p s).
Proof.
  induction s as [|c s IH]; [reflexivity|].
  cbn [lstrip_by]. destruct (p c) eqn:Hc.
  - rewrite <- IH. cbn [rstrip_by].
    destruct (rstrip_by p s) as [|d r] eqn:E.
    + rewrite Hc. reflexivity.
    + cbn [lstrip_by]. rewrite Hc. reflexivity.
  - cbn [rstrip_by].
    destruct (rstrip_by p s) as [|d r] eqn:E; rewrite ?Hc; cbn [lstrip_by];
      rewrite Hc; reflexivity.
Qed.

Lemma strip_idem (s : string) : strip (strip s) = strip s.
Proof.
  unfold strip, strip_by.
  rewrite <- (lstrip_rstrip _ (rstrip_by _ _)), rstrip_idem.
  rewrite <- lstrip_rstrip.
  generalize (rstrip_by is_space s). intros t.
  induction t as [|c t IH]; simpl; [reflexivity|].
  destruct (is_space c) eqn:Hc; [exact IH|]. simpl. rewrite Hc. reflexivity.
Qed.

Lemma strip_pad (ws1 s ws2 : string) :
  blank ws1 -> blank ws2 -> strip (ws1 ++ s ++ ws2) = strip s.
Proof.
  unfold blank, strip, strip_by. intros H1 H2.
  rewrite (lstrip_app_blank _ _ _ H1), <- lstrip_rstrip.
  rewrite (rstrip_app_blank _ _ _ H2). apply lstrip_rstrip.
Qed.

Lemma normalize_strip (h : string) :
  normalize_column_name (strip h) = normalize_column_name h.
Proof.
  unfold normalize_column_name. rewrite lower_strip. apply strip_idem.
Qed.



End NormalizeFacts.
Section ResolverFacts.

Lemma str_in_In (x : string) (l : list string) : str_in x l = true <-> In x l.
Proof.
  unfold str_in. rewrite existsb_exists. split.
  - intros (y & Hy & E). apply String.eqb_eq in E. subst. exact Hy.
  - intros H. exists x. split; [exact H | apply String.eqb_refl].
Qed.

Lemma role_test_spec (r : role) (h : string) :
  role_test r h = true <-> role_matches r h.
Proof.
  destruct r; unfold role_test, role_matches, is_speaker, is_start_time,
    is_end_time, is_source_column.
  - rewrite str_in_In. simpl. intuition congruence.
  - rewrite str_in_In. simpl. intuition congruence.
  - rewrite str_in_In. simpl. intuition congruence.
  - cbn [source_keywords existsb]. rewrite !orb_true_iff, !contains_iff.
    intuition discriminate.
Qed.

Lemma role_test_strip (r : role) (h : string) :
  role_test r (strip h) = role_test r h.
Proof.
  destruct r; unfold role_test, is_speaker, is_start_time, is_end_time,
    is_source_column; rewrite normalize_strip; reflexivity.
Qed.

Lemma role_test_nonempty (r : role) (h : string) :
  role_test r h = true -> h <> EmptyString.
Proof.
  intros H ->. destruct r; discriminate H.
Qed.

Lemma role_resolved_spec (headers : list string) (r : role) :
  existsb (role_test r) headers = true <-> role_resolved headers r.
Proof.
  unfold role_resolved. rewrite existsb_exists, Exists_exists.
  split; intros (h & Hin & Hm); exists h; (split; [exact Hin|]);
    apply role_test_spec; exact Hm.
Qed.

(** The three exact-match tests exclude one another. *)
Lemma speaker_not_start (col : string) :
  is_speaker col = true -> is_start_time col = false.
Proof.
  unfold is_speaker, is_start_time. intros H.
  apply str_in_In in H. simpl in H. destruct H as [<-|[]]. reflexivity.
Qed.

Lemma speaker_not_end (col : string) :
  is_speaker col = true -> is_end_time col = false.
Proof.
  unfold is_speaker, is_end_time. intros H.
  apply str_in_In in H. simpl in H. destruct H as [<-|[]]. reflexivity.
Qed.

Lemma start_not_end (col : string) :
  is_start_time col = true -> is_end_time col = false.
Proof.
  unfold is_start_time, is_end_time. intros H.
  apply str_in_In in H. simpl in H.
  destruct H as [<-|[<-|[<-|[]]]]; reflexivity.
Qed.

Lemma assign_speaker (st : required_cols) (col : string) :
  speaker_col (assign_col st col) = if is_speaker col then Some col else speaker_col st.
Proof.
  unfold assign_col. fold (is_speaker col) (is_start_time col) (is_end_time col).
  destruct (is_speaker col); [reflexivity|].
  destruct (is_start_time col); [reflexivity|].
  destruct (is_end_time col); reflexivity.
Qed.

Lemma assign_start_time (st : required_cols) (col : string) :
  start_time_col (assign_col st col) =
  if is_start_time col then Some col else start_time_col st.
Proof.
  unfold assign_col. fold (is_speaker col) (is_start_time col) (is_end_time col).
  destruct (is_speaker col) eqn:E.
  - rewrite (speaker_not_start _ E). reflexivity.
  - destruct (is_start_time col); [reflexivity|].
    destruct (is_end_time col); reflexivity.
Qed.

Lemma assign_end_time (st : required_cols) (col : string) :
  end_time_col (assign_col st col) =
  if is_end_time col then Some col else end_time_col st.
Proof.
  unfold assign_col. fold (is_speaker col) (is_start_time col) (is_end_time col).
  destruct (is_speaker col) eqn:E.
  - rewrite (speaker_not_end _ E). reflexivity.
  - destruct (is_start_time col) eqn:E'.
    + rewrite (start_not_end _ E'). reflexivity.
    + destruct (is_end_time col); reflexivity.
Qed.

(** A field that each iteration overwrites exactly on a match holds, after
    the loop, the last matching header. *)
Lemma last_match_fold (proj : required_cols -> option string) (test : string -> bool) :
  (forall st col, proj (assign_col st col) = if test col then Some col else proj st) ->
  forall cols st,
    proj (fold_left assign_col cols st) =
    match find test (rev cols) with
    | Some col => Some col
    | None => proj st
    end.
Proof.
  intros Hstep cols. induction cols as [|c cols IH]; intros st; [reflexivity|].
  cbn [fold_left rev]. rewrite IH, Hstep.
  assert (Hfind : forall l, find test (l ++ [c]) =
            match find test l with
            | Some x => Some x
            | None => if test c then Some c else None
            end).
  { induction l as [|x l IHl]; cbn [find app]; [reflexivity|].
    destruct (test x); [reflexivity | exact IHl]. }
  rewrite Hfind. destruct (find test (rev cols)); [reflexivity|].
  destruct (test c); reflexivity.
Qed.

Lemma find_last (test : string -> bool) (pre post : list string) (h : string) :
  test h = true -> forallb (fun c => negb (test c)) post = true ->
  find test (rev (pre ++ h :: post)) = Some h.
Proof.
  intros Hh Hpost. rewrite rev_app_distr. cbn [rev]. rewrite <- app_assoc.
  assert (Hnone : forall l, forallb (fun c => negb (test c)) l = true ->
            forall k, find test (rev l ++ k) = find test k).
  { induction l as [|x l IHl]; intros Hl k; [reflexivity|].
    cbn [forallb] in Hl. apply andb_true_iff in Hl as [Hx Hl].
    cbn [rev]. rewrite <- app_assoc, (IHl Hl). cbn [app find].
    apply negb_true_iff in Hx. rewrite Hx. reflexivity. }
  rewrite (Hnone _ Hpost). cbn [app find]. rewrite Hh. reflexivity.
Qed.

Lemma find_first (test : string -> bool) (pre post : list string) (h : string) :
  test h = true -> forallb (fun c => negb (test c)) pre = true ->
  find test (pre ++ h :: post) = Some h.
Proof.
  intros Hh. induction pre as [|x pre IH]; cbn [forallb app find].
  - intros _. rewrite Hh. reflexivity.
  - intros H. apply andb_true_iff in H as [Hx Hpre].
    apply negb_true_iff in Hx. rewrite Hx. exact (IH Hpre).
Qed.

Lemma find_none_existsb (test : string -> bool) (l : list string) :
  find test l = None <-> existsb test l = false.
Proof.
  induction l as [|x l IH]; cbn [find existsb]; [tauto|].
  destruct (test x); simpl; [split; discriminate | exact IH].
Qed.

Lemma find_some_test (test : string -> bool) (l : list string) (x : string) :
  find test l = Some x -> test x = true /\ existsb test l = true.
Proof.
  intros H. destruct (find_some _ _ H) as [Hin Hx]. split; [exact Hx|].
  apply existsb_exists. exists x. tauto.
Qed.

Lemma existsb_rev (test : string -> bool) (l : list string) :
  existsb test (rev l) = existsb test l.
Proof.
  induction l as [|x l IH]; [reflexivity|].
  cbn [rev]. rewrite existsb_app, IH. cbn [existsb].
  rewrite orb_false_r. apply orb_comm.
Qed.

Lemma existsb_strip (r : role) (l : list string) :
  existsb (role_test r) (map strip l) = existsb (role_test r) l.
Proof.
  induction l as [|x l IH]; [reflexivity|].
  cbn [map existsb]. rewrite role_test_strip, IH. reflexivity.
Qed.

(** After the resolution of [upload_csv], a role is falsy exactly when no
    header passes its test. *)
Lemma falsy_found (test : string -> bool) (l : list string) :
  (forall h, test h = true -> h <> EmptyString) ->
  falsy (find test l) = negb (existsb test l).
Proof.
  intros Hne. destruct (find test l) as [x|] eqn:E.
  - destruct (find_some_test _ _ _ E) as [Hx ->].
    specialize (Hne _ Hx). destruct x; [congruence | reflexivity].
  - apply find_none_existsb in E. rewrite E. reflexivity.
Qed.

End ResolverFacts.
Section ResolutionOfUpload.

Variable df : dataframe.

Lemma resolved_speaker_col :
  speaker_col (find_required_cols (strip_columns df)) =
  find is_speaker (rev (map strip (columns df))).
Proof.
  unfold find_required_cols. cbn [columns strip_columns].
  rewrite (last_match_fold speaker_col is_speaker assign_speaker).
  destruct (find is_speaker _); reflexivity.
Qed.

Lemma resolved_start_time_col :
  start_time_col (find_required_cols (strip_columns df)) =
  find is_start_time (rev (map strip (columns df))).
Proof.
  unfold find_required_cols. cbn [columns strip_columns].
  rewrite (last_match_fold start_time_col is_start_time assign_start_time).
  destruct (find is_start_time _); reflexivity.
Qed.

Lemma resolved_end_time_col :
  end_time_col (find_required_cols (strip_columns df)) =
  find is_end_time (rev (map strip (columns df))).
Proof.
  unfold find_required_cols. cbn [columns strip_columns].
  rewrite (last_match_fold end_time_col is_end_time assign_end_time).
  destruct (find is_end_time _); reflexivity.
Qed.

Lemma resolved_source_col :
  find_source_column (strip_columns df) =
  find is_source_column (map strip (columns df)).
Proof. reflexivity. Qed.

Lemma falsy_speaker_col :
  falsy (speaker_col (find_required_cols (strip_columns df))) =
  negb (existsb (role_test Speaker) (columns df)).
Proof.
  rewrite resolved_speaker_col, (falsy_found _ _ (role_test_nonempty Speaker)).
  change is_speaker with (role_test Speaker).
  rewrite existsb_rev, existsb_strip. reflexivity.
Qed.

Lemma falsy_start_time_col :
  falsy (start_time_col (find_required_cols (strip_columns df))) =
  negb (existsb (role_test StartTime) (columns df)).
Proof.
  rewrite resolved_start_time_col, (falsy_found _ _ (role_test_nonempty StartTime)).
  change is_start_time with (role_test StartTime).
  rewrite existsb_rev, existsb_strip. reflexivity.
Qed.

Lemma falsy_end_time_col :
  falsy (end_time_col (find_required_cols (strip_columns df))) =
  negb (existsb (role_test EndTime) (columns df)).
Proof.
  rewrite resolved_end_time_col, (falsy_found _ _ (role_test_nonempty EndTime)).
  change is_end_time with (role_test EndTime).
  rewrite existsb_rev, existsb_strip. reflexivity.
Qed.

Lemma falsy_source_col :
  falsy (find_source_column (strip_columns df)) =
  negb (existsb (role_test SourceText) (columns df)).
Proof.
  rewrite resolved_source_col, (falsy_found _ _ (role_test_nonempty SourceText)).
  change is_source_column with (role_test SourceText).
  rewrite existsb_strip. reflexivity.
Qed.

Lemma upload_csv_missing_columns :
  if existsb (role_test Speaker) (columns df) && existsb (role_test StartTime) (columns df)
     && existsb (role_test EndTime) (columns df) && existsb (role_test SourceText) (columns df)
  then unresolved_roles (columns df) = [] /\ forall msg, upload_csv df <> MissingColumns msg
  else unresolved_roles (columns df) <> [] /\
       upload_csv df =
       MissingColumns ("Missing required columns: " ++
                       join ", " (map role_label (unresolved_roles (columns df)))).
Proof.
  unfold upload_csv, unresolved_roles, all_roles, missing_cols. cbn [filter].
  rewrite falsy_speaker_col, falsy_start_time_col, falsy_end_time_col, falsy_source_col.
  destruct (existsb (role_test Speaker) (columns df));
  destruct (existsb (role_test StartTime) (columns df));
  destruct (existsb (role_test EndTime) (columns df));
  destruct (existsb (role_test SourceText) (columns df));
  cbn [negb andb orb];
  try (split; [discriminate | reflexivity]).
  split; [reflexivity|]. intros msg.
  destruct (speaker_col (find_required_cols (strip_columns df))); [|discriminate].
  destruct (start_time_col (find_required_cols (strip_columns df))); [|discriminate].
  destruct (end_time_col (find_required_cols (strip_columns df))); [|discriminate].
  destruct (find_source_column (strip_columns df)); [|discriminate].
  destruct (build_segments _ _ _ _ _ _ _ _) as [[? ?]|?]; discriminate.
Qed.

End ResolutionOfUpload.

(** C6. A header collection that leaves at least one of the four roles
    (speaker, start_time, end_time, source text) unresolved makes [upload_csv]
    answer with the missing-columns failure, whose message lists exactly the
    unresolved roles and which carries no segments; when the four roles are
    resolved that failure does not occur. *)
Theorem missing_roles_are_reported (df : dataframe) :
  (forall r, In r (unresolved_roles (columns df)) <-> ~ role_resolved (columns df) r) /\
  ((exists r, ~ role_resolved (columns df) r) ->
   upload_csv df =
   MissingColumns ("Missing required columns: " ++
                   join ", " (map role_label (unresolved_roles (columns df))))) /\
  ((forall r, role_resolved (columns df) r) ->
   forall msg, upload_csv df <> MissingColumns msg).
Proof.
  assert (Hspec : forall r, In r (unresolved_roles (columns df)) <->
                            ~ role_resolved (columns df) r).
  { intros r. unfold unresolved_roles. rewrite filter_In, negb_true_iff.
    rewrite <- role_resolved_spec, not_true_iff_false.
    split; [tauto|]. intros H. split; [|exact H].
    destruct r; simpl; tauto. }
  split; [exact Hspec|].
  pose proof (upload_csv_missing_columns df) as H.
  destruct (_ && _) in H.
  - destruct H as [Hnil Hno]. split.
    + intros [r Hr]. apply Hspec in Hr. rewrite Hnil in Hr. destruct Hr.
    + intros _. exact Hno.
  - destruct H as [Hne Hmsg]. split.
    + intros _. exact Hmsg.
    + intros Hall. exfalso. apply Hne.
      destruct (unresolved_roles (columns df)) as [|r l] eqn:E; [reflexivity|].
      exfalso. apply (proj1 (Hspec r)); [left; reflexivity | apply Hall].
Qed.

Lemma missing_roles_are_reported_witness :
  upload_csv {| columns := ["Start Time"; "END_TIME"; "notes"]; rows := [] |} =
  MissingColumns "Missing required columns: speaker, source (script/line/text/transcription)".
Proof.
  refine (proj1 (proj2 (missing_roles_are_reported
            {| columns := ["Start Time"; "END_TIME"; "notes"]; rows := [] |})) _).
  exists Speaker. intros H. apply role_resolved_spec in H. discriminate H.
Defined.
Section FindFacts.

Context {A : Type} (test : A -> bool).

Lemma find_some_split (l : list A) (x : A) :
  find test l = Some x <->
  exists pre post, l = (pre ++ x :: post)%list /\ test x = true /\
                   forallb (fun c => negb (test c)) pre = true.
Proof.
  induction l as [|y l IH]; cbn [find].
  - split; [discriminate|]. intros (pre & post & H & _). destruct pre; discriminate.
  - destruct (test y) eqn:Ey.
    + split.
      * intros [= ->]. exists [], l. auto.
      * intros (pre & post & H & Hx & Hpre). destruct pre as [|z pre].
        { injection H as -> _. reflexivity. }
        injection H as -> _. cbn [forallb] in Hpre. rewrite Ey in Hpre. discriminate.
    + rewrite IH. split.
      * intros (pre & post & -> & Hx & Hpre). exists (y :: pre), post.
        cbn [forallb]. rewrite Ey. auto.
      * intros (pre & post & H & Hx & Hpre). destruct pre as [|z pre].
        { injection H as -> _. congruence. }
        injection H as -> ->. cbn [forallb] in Hpre.
        apply andb_true_iff in Hpre as [_ Hpre]. exists pre, post. auto.
Qed.

Lemma forallb_negb_Forall (P : A -> Prop) (l : list A) :
  (forall x, test x = true <-> P x) ->
  forallb (fun c => negb (test c)) l = true <-> Forall (fun x => ~ P x) l.
Proof.
  intros HP. rewrite forallb_forall, Forall_forall.
  split; intros H x Hin; specialize (H x Hin).
  - rewrite <- HP. apply negb_true_iff in H. congruence.
  - rewrite <- HP in H. apply negb_true_iff. destruct (test x); congruence.
Qed.

End FindFacts.

(** C7. [find_source_column] returns the first header, in column order,
    whose normalized (lowercased, trimmed) form contains one of [script],
    [line], [text], [transcription]; it returns nothing when no header does;
    the headers [id, Line, Transcription] resolve to [Line]. *)
Theorem source_column_is_first_match (df : dataframe) :
  (forall col,
     find_source_column df = Some col <->
     exists pre post,
       columns df = (pre ++ col :: post)%list /\
       role_matches SourceText col /\
       Forall (fun h => ~ role_matches SourceText h) pre) /\
  (find_source_column df = None <->
   Forall (fun h => ~ role_matches SourceText h) (columns df)) /\
  find_source_column {| columns := ["id"; "Line"; "Transcription"]; rows := rows df |}
  = Some "Line".
Proof.
  unfold find_source_column. repeat split.
  - intros H. apply find_some_split in H as (pre & post & E & Hc & Hpre).
    exists pre, post. split; [exact E|]. split.
    + apply (role_test_spec SourceText), Hc.
    + apply (forallb_negb_Forall is_source_column); [|exact Hpre].
      intros x. apply (role_test_spec SourceText).
  - intros (pre & post & E & Hc & Hpre). apply find_some_split.
    exists pre, post. split; [exact E|]. split.
    + apply (role_test_spec SourceText), Hc.
    + apply (forallb_negb_Forall is_source_column) in Hpre; [exact Hpre|].
      intros x. apply (role_test_spec SourceText).
  - intros H. apply find_none_existsb in H.
    apply (forallb_negb_Forall is_source_column (role_matches SourceText)).
    { intros x. apply (role_test_spec SourceText). }
    apply forallb_forall. intros x Hin. apply negb_true_iff.
    destruct (is_source_column x) eqn:E; [|reflexivity].
    rewrite <- H. symmetry. apply existsb_exists. exists x. auto.
  - intros H. apply find_none_existsb.
    apply (forallb_negb_Forall is_source_column (role_matches SourceText)) in H.
    2:{ intros x. apply (role_test_spec SourceText). }
    destruct (existsb is_source_column (columns df)) eqn:E; [|reflexivity].
    apply existsb_exists in E as (x & Hin & Hx).
    rewrite forallb_forall in H. specialize (H x Hin). rewrite Hx in H. discriminate.
Qed.

Lemma source_column_is_first_match_witness :
  find_source_column
    {| columns := ["Speaker"; "Dialogue Lines"; "Full Text"]; rows := [] |}
  = Some "Dialogue Lines".
Proof.
  apply (proj1 (source_column_is_first_match _)).
  exists ["Speaker"], ["Full Text"]. split; [reflexivity|]. split.
  - right. left. exists "dialogue ", "s". reflexivity.
  - constructor; [|constructor]. intros H.
    apply (role_test_spec SourceText) in H. discriminate H.
Defined.

Section CaseAndPadding.







End CaseAndPadding.



(** C9. When several headers match the same role keyword after
    normalization, the speaker, start_time and end_time roles resolve to the
    last of them in column order, and the source-text role to the first. *)
Theorem duplicate_headers_resolution
  (df : dataframe) (pre post : list string) (h : string) :
  columns df = (pre ++ h :: post)%list ->
  let req := find_required_cols (strip_columns df) in
  (role_matches Speaker h -> Forall (fun c => ~ role_matches Speaker c) post ->
   speaker_col req = Some (strip h)) /\
  (role_matches StartTime h -> Forall (fun c => ~ role_matches StartTime c) post ->
   start_time_col req = Some (strip h)) /\
  (role_matches EndTime h -> Forall (fun c => ~ role_matches EndTime c) post ->
   end_time_col req = Some (strip h)) /\
  (role_matches SourceText h -> Forall (fun c => ~ role_matches SourceText c) pre ->
   find_source_column (strip_columns df) = Some (strip h)).
Proof.
  intros E req. unfold req.
  rewrite resolved_speaker_col, resolved_start_time_col, resolved_end_time_col,
    resolved_source_col, E, map_app.
  cbn [map].
  assert (Hstrip : forall r l, Forall (fun c => ~ role_matches r c) l ->
            forallb (fun c => negb (role_test r c)) (map strip l) = true).
  { intros r l Hl. apply forallb_forall. intros x Hx.
    apply in_map_iff in Hx as (y & <- & Hy). rewrite Forall_forall in Hl.
    specialize (Hl y Hy). rewrite role_test_strip.
    destruct (role_test r y) eqn:Ey; [|reflexivity].
    apply role_test_spec in Ey. contradiction. }
  assert (Hh : forall r, role_matches r h -> role_test r (strip h) = true).
  { intros r Hr. rewrite role_test_strip. apply role_test_spec, Hr. }
  repeat split; intros Hm Hrest.
  - apply (find_last (role_test Speaker)); auto.
  - apply (find_last (role_test StartTime)); auto.
  - apply (find_last (role_test EndTime)); auto.
  - apply (find_first (role_test SourceText)); auto.
Qed.

Lemma duplicate_headers_resolution_witness :
  speaker_col (find_required_cols (strip_columns
    {| columns := ["Speaker"; "Text"; " SPEAKER "; "TEXT"]; rows := [] |}))
  = Some "SPEAKER" /\
  find_source_column (strip_columns
    {| columns := ["Speaker"; "Text"; " SPEAKER "; "TEXT"]; rows := [] |})
  = Some "Text".
Proof.
  split.
  - refine (proj1 (duplicate_headers_resolution
      {| columns := ["Speaker"; "Text"; " SPEAKER "; "TEXT"]; rows := [] |}
      ["Speaker"; "Text"] ["TEXT"] " SPEAKER " eq_refl) eq_refl _).
    constructor; [|constructor]. intros H. discriminate H.
  - refine (proj2 (proj2 (proj2 (duplicate_headers_resolution
      {| columns := ["Speaker"; "Text"; " SPEAKER "; "TEXT"]; rows := [] |}
      ["Speaker"] [" SPEAKER "; "TEXT"] "Text" eq_refl))) _ _).
    + right. right. left. exists "", "". reflexivity.
    + constructor; [|constructor]. intros H.
      apply (role_test_spec SourceText) in H. discriminate H.
Defined.
Section MonadFacts.

Lemma bind_ret_inv {A B : Type} (c : res A) (k : A -> res B) (y : B) :
  bind c k = Ret y -> exists x, c = Ret x /\ k x = Ret y.
Proof.
  destruct c as [x|e]; cbn [bind]; [|discriminate]. intros H. exists x. auto.
Qed.

Lemma try_except_ret {A : Type} (c : res A) (h : exn -> bool) (d : res A) (x : A) :
  c = Ret x -> try_except c h d = Ret x.
Proof. intros ->. reflexivity. Qed.


Lemma map_res_ret_inv {A B : Type} (f : A -> res B) (xs : list A) (ys : list B) :
  map_res f xs = Ret ys -> Forall2 (fun x y => f x = Ret y) xs ys.
Proof.
  revert ys. induction xs as [|x xs IH]; cbn [map_res]; intros ys H.
  - injection H as <-. constructor.
  - apply bind_ret_inv in H as (y & Hy & H).
    apply bind_ret_inv in H as (ys' & Hys & H). injection H as <-.
    constructor; [exact Hy | exact (IH _ Hys)].
Qed.

Lemma map_res_raise {A B : Type} (f : A -> res B) (xs : list A) (e0 : exn) :
  (forall x e, f x = Raise e -> e = e0) ->
  Exists (fun x => f x = Raise e0) xs -> map_res f xs = Raise e0.
Proof.
  intros Hf. induction 1 as [x xs Hx | x xs _ IH]; cbn [map_res].
  - rewrite Hx. reflexivity.
  - destruct (f x) as [y|e] eqn:E; cbn [bind].
    + rewrite IH. reflexivity.
    + rewrite (Hf _ _ E). reflexivity.
Qed.

End MonadFacts.

(** Splits a successful sequence of binds into its steps. *)
Ltac bind_inv H :=
  repeat (let x := fresh "x" in
          let E := fresh "E" in
          apply bind_ret_inv in H as (x & E & H)).

Section ArithmeticFacts.

Lemma int_of_string_raises (p : string) (e : exn) :
  PyParse.int_of_string p = Raise e -> e = ValueError.
Proof.
  unfold PyParse.int_of_string.
  destruct (PyParse.split_sign _) as [neg body].
  destruct (PyParse.digits_value body 0 false); [discriminate|].
  intros [= <-]. reflexivity.
Qed.

Lemma float_of_string_raises (p : string) (e : exn) :
  PyParse.float_of_string p = Raise e -> e = ValueError.
Proof.
  unfold PyParse.float_of_string.
  destruct (PyParse.drop_underscores _ _) as [t|]; [|intros [= <-]; reflexivity].
  destruct (PyParse.split_sign t) as [neg body].
  destruct (_ || _); [discriminate|].
  destruct (String.eqb _ _); [discriminate|].
  destruct (PyParse.read_decimal neg body); [discriminate|].
  intros [= <-]. reflexivity.
Qed.

Lemma hms_seconds_value (h m s : Z) :
  hms_seconds h m s = Ret (PyInt (h * 3600 + m * 60 + s)).
Proof. reflexivity. Qed.

Lemma of_int_raises (z : Z) (e : exn) :
  PyNum.of_int z = Raise e -> e = OverflowError.
Proof.
  unfold PyNum.of_int. destruct (PyNum.Z2SF z); try discriminate.
  intros [= <-]. reflexivity.
Qed.

Lemma four_field_seconds_raises (h m s f : Z) (e : exn) :
  four_field_seconds h m s f = Raise e -> e = OverflowError.
Proof.
  unfold four_field_seconds, PyNum.truediv, PyNum.add, PyNum.to_float.
  destruct (PyNum.of_int f) as [ff|e1] eqn:Ef; cbn [bind].
  - change (PyNum.is_zero thirty) with false. cbn [bind].
    destruct (PyNum.of_int (h * 3600 + m * 60 + s)) as [fh|e2] eqn:Eh; cbn [bind].
    + discriminate.
    + intros [= <-]. exact (of_int_raises _ _ Eh).
  - intros [= <-]. exact (of_int_raises _ _ Ef).
Qed.


End ArithmeticFacts.

Section ColonForms.

Variables (time_str : string) (parts : list string).
Hypothesis Hstrip : strip time_str = join ":" parts.
Hypothesis Hparts : Forall no_colon parts.
Hypothesis Hlen : (2 <= List.length parts)%nat.





End ColonForms.


Section SignFacts.

Import PyNum.

Lemma binary_round_aux_sign (m e : Z) (l : location) :
  sign_of (binary_round_aux prec emax false m e l) = false.
Proof.
  unfold binary_round_aux.
  destruct (shr_fexp prec emax m e l) as [mrs' e'].
  destruct (shr_fexp prec emax _ e' loc_Exact) as [mrs'' e''].
  destruct (shr_m mrs''); [reflexivity | | reflexivity].
  destruct (_ <=? _); reflexivity.
Qed.

Lemma binary_round_sign (m : positive) (e : Z) :
  sign_of (binary_round prec emax false m e) = false.
Proof.
  unfold binary_round. destruct (shl_align _ _ _) as [mz ez].
  apply binary_round_aux_sign.
Qed.

Lemma binary_normalize_sign (z e : Z) :
  0 <= z -> sign_of (binary_normalize prec emax z e false) = false.
Proof.
  destruct z as [|p|p]; intros H; [reflexivity | apply binary_round_sign | lia].
Qed.

Lemma SFdiv_sign (a b : spec_float) :
  sign_of a = false -> sign_of b = false -> sign_of (SFdiv prec emax a b) = false.
Proof.
  destruct a as [sa|sa| |sa ma ea], b as [sb|sb| |sb mb eb];
    cbn [sign_of SFdiv]; intros Ha Hb; subst; try reflexivity.
  destruct (SFdiv_core_binary _ _ _ _ _ _) as [[mz ez] lz].
  apply binary_round_aux_sign.
Qed.

Lemma SFadd_sign (a b : spec_float) :
  sign_of a = false -> sign_of b = false -> sign_of (SFadd prec emax a b) = false.
Proof.
  destruct a as [sa|sa| |sa ma ea], b as [sb|sb| |sb mb eb];
    cbn [sign_of SFadd]; intros Ha Hb; subst; try reflexivity.
  apply binary_normalize_sign. cbn [cond_Zopp]. lia.
Qed.

Lemma of_int_sign (z : Z) (f : spec_float) :
  0 <= z -> of_int z = Ret f -> sign_of f = false.
Proof.
  intros Hz. unfold of_int, Z2SF.
  pose proof (binary_normalize_sign z 0 Hz) as Hs.
  destruct (binary_normalize prec emax z 0 false); intros [= <-]; exact Hs.
Qed.

Lemma not_negative_int (z : Z) : 0 <= z -> not_negative (PyInt z).
Proof.
  intros Hz. unfold not_negative, lt, compare. cbn [value ext_compare].
  unfold Qcompare. cbn [Qnum Qden inject_Z]. rewrite Z.mul_1_r. cbn [Z.mul].
  destruct (Z.compare_spec z 0); (reflexivity || lia).
Qed.

Lemma not_negative_float (f : spec_float) :
  sign_of f = false -> not_negative (PyFloat f).
Proof.
  destruct f as [s|s| |s m e]; cbn [sign_of]; intros Hs; try subst s; try reflexivity.
  unfold not_negative, lt, compare. cbn [value ext_compare cond_Zopp].
  unfold dyadic. destruct (0 <=? e) eqn:He.
  - unfold Qcompare. cbn [Qnum Qden inject_Z]. rewrite Z.mul_1_r.
    change (0 * 1) with 0. apply Z.leb_le in He.
    assert (0 < Z.pos m * 2 ^ e) by (apply Z.mul_pos_pos; [lia | apply Z.pow_pos_nonneg; lia]).
    destruct (Z.compare_spec (Z.pos m * 2 ^ e) 0); (reflexivity || lia).
  - reflexivity.
Qed.

Lemma four_field_not_negative (h m s f : Z) (x : num) :
  0 <= h -> 0 <= m -> 0 <= s -> 0 <= f ->
  four_field_seconds h m s f = Ret x -> not_negative x.
Proof.
  intros Hh Hm Hs Hf. unfold four_field_seconds, truediv, add, to_float.
  destruct (of_int f) as [ff|] eqn:Ef; cbn [bind]; [|discriminate].
  change (is_zero thirty) with false. cbn [bind].
  destruct (of_int (h * 3600 + m * 60 + s)) as [fh|] eqn:Eh; cbn [bind]; [|discriminate].
  intros [= <-]. apply not_negative_float, SFadd_sign.
  - apply (of_int_sign (h * 3600 + m * 60 + s)); [lia | exact Eh].
  - apply SFdiv_sign; [apply (of_int_sign _ _ Hf Ef) | reflexivity].
Qed.

End SignFacts.

Section MinusFreeText.

Import PyParse.

Lemma minus_free_contains (s : string) : contains "-" s = false -> minus_free s = true.
Proof.
  unfold minus_free. rewrite contains_char. apply negb_false_iff.
Qed.

Lemma all_chars_lstrip (P p : ascii -> bool) (s : string) :
  all_chars P s = true -> all_chars P (lstrip_by p s) = true.
Proof.
  induction s as [|c s IH]; cbn [lstrip_by all_chars]; [reflexivity|].
  intros H. destruct (p c); [|exact H].
  apply andb_true_iff in H as [_ H]. exact (IH H).
Qed.

Lemma all_chars_rstrip (P p : ascii -> bool) (s : string) :
  all_chars P s = true -> all_chars P (rstrip_by p s) = true.
Proof.
  induction s as [|c s IH]; cbn [rstrip_by all_chars]; [reflexivity|].
  intros H. apply andb_true_iff in H as [Hc H]. specialize (IH H).
  destruct (rstrip_by p s).
  - destruct (p c); cbn [all_chars]; rewrite ?Hc; reflexivity.
  - cbn [all_chars] in *. rewrite Hc. exact IH.
Qed.

Lemma all_chars_strip (P p : ascii -> bool) (s : string) :
  all_chars P s = true -> all_chars P (strip_by p s) = true.
Proof.
  intros H. apply all_chars_rstrip, all_chars_lstrip, H.
Qed.

Lemma all_chars_split (P : ascii -> bool) (sep : ascii) (s : string) :
  all_chars P s = true -> Forall (fun p => all_chars P p = true) (split sep s).
Proof.
  induction s as [|c s IH]; cbn [split all_chars].
  - intros _. repeat constructor.
  - intros H. apply andb_true_iff in H as [Hc H]. specialize (IH H).
    destruct (Ascii.eqb c sep).
    + constructor; [reflexivity | exact IH].
    + destruct (split sep s) as [|p ps].
      * repeat constructor. cbn [all_chars]. rewrite Hc. reflexivity.
      * inversion IH; subst. constructor; [|assumption].
        cbn [all_chars]. rewrite Hc. assumption.
Qed.

Lemma split_sign_minus_free (s : string) :
  minus_free s = true -> split_sign s = (false, snd (split_sign s)) /\
                         minus_free (snd (split_sign s)) = true.
Proof.
  unfold minus_free. destruct s as [|c s]; [auto|].
  cbn [all_chars]. intros H. apply andb_true_iff in H as [Hc Hs].
  destruct c as [[] [] [] [] [] [] [] []]; try discriminate Hc;
    cbn [split_sign snd all_chars]; try (split; [reflexivity|]);
    try exact Hs; rewrite Hs; reflexivity.
Qed.

Lemma digit_value_nonneg (c : ascii) : is_digit c = true -> 0 <= digit_value c.
Proof.
  unfold is_digit, digit_value. intros H.
  apply andb_true_iff in H as [H _]. apply N.leb_le in H. lia.
Qed.

Lemma digits_value_nonneg (s : string) (acc : Z) (b : bool) (n : Z) :
  0 <= acc -> digits_value s acc b = Some n -> 0 <= n.
Proof.
  revert acc b. induction s as [|c s IH]; intros acc b Hacc; cbn [digits_value].
  - destruct b; [|discriminate]. intros [= <-]. exact Hacc.
  - destruct (Ascii.eqb c "_").
    + destruct b; [|discriminate]. apply IH, Hacc.
    + destruct (is_digit c) eqn:Hd; [|discriminate].
      apply IH. pose proof (digit_value_nonneg c Hd). lia.
Qed.

Lemma int_of_string_nonneg (p : string) (n : Z) :
  minus_free p = true -> int_of_string p = Ret n -> 0 <= n.
Proof.
  intros Hp. unfold int_of_string.
  pose proof (all_chars_strip _ is_cspace _ Hp) as Hs.
  destruct (split_sign_minus_free _ Hs) as [E _]. rewrite E.
  destruct (digits_value _ 0 false) as [k|] eqn:Ek; [|discriminate].
  intros [= <-]. apply (digits_value_nonneg _ _ _ _ (Z.le_refl 0) Ek).
Qed.

Lemma drop_underscores_chars (P : ascii -> bool) (s : string) (prev : ascii) (t : string) :
  all_chars P s = true -> drop_underscores s prev = Some t -> all_chars P t = true.
Proof.
  revert prev t. induction s as [|c s IH]; intros prev t; cbn [drop_underscores all_chars].
  - intros _. destruct (Ascii.eqb prev "_"); [discriminate|]. intros [= <-]. reflexivity.
  - intros H. apply andb_true_iff in H as [Hc Hs].
    destruct (Ascii.eqb c "_").
    + destruct (is_digit prev); [|discriminate]. apply IH, Hs.
    + destruct (_ && _); [discriminate|].
      destruct (drop_underscores s c) as [t'|] eqn:E; [|discriminate].
      intros [= <-]. cbn [all_chars]. rewrite Hc. exact (IH _ _ Hs E).
Qed.

Lemma decimal2SF_sign (d k : Z) : PyNum.sign_of (decimal2SF false d k) = false.
Proof.
  unfold decimal2SF. destruct d as [|p|p]; try reflexivity.
  destruct (0 <=? k) eqn:Hk.
  - apply binary_normalize_sign. cbn [cond_Zopp]. apply Z.leb_le in Hk.
    apply Z.mul_nonneg_nonneg; [lia | apply Z.pow_nonneg; lia].
  - apply SFdiv_sign; reflexivity.
Qed.

Lemma read_decimal_sign (s : string) (f : spec_float) :
  read_decimal false s = Some f -> PyNum.sign_of f = false.
Proof.
  unfold read_decimal.
  destruct (read_digits s 0 0) as [[a na] r1].
  destruct (match r1 with
            | String "." r => let '(d, nb, r2) := read_digits r a 0 in (d, nb, r2)
            | _ => (a, 0, r1)
            end) as [[d nb] r2].
  destruct (0 <? na + nb); [|discriminate].
  destruct (read_exponent r2); [|discriminate].
  intros [= <-]. apply decimal2SF_sign.
Qed.

Lemma float_of_string_sign (s : string) (f : spec_float) :
  minus_free s = true -> float_of_string s = Ret f -> PyNum.sign_of f = false.
Proof.
  intros Hs. unfold float_of_string.
  pose proof (all_chars_strip _ is_cspace _ Hs) as Hs'.
  destruct (drop_underscores _ " ") as [t|] eqn:Et; [|discriminate].
  pose proof (drop_underscores_chars _ _ _ _ Hs' Et) as Ht.
  destruct (split_sign_minus_free _ Ht) as [E _]. rewrite E.
  destruct (_ || _); [intros [= <-]; reflexivity|].
  destruct (String.eqb _ _); [intros [= <-]; reflexivity|].
  destruct (read_decimal false _) as [g|] eqn:Eg; [|discriminate].
  intros [= <-]. exact (read_decimal_sign _ _ Eg).
Qed.

End MinusFreeText.
Section ParserContract.

Lemma map_res_int_raises (parts : list string) (e : exn) :
  map_res PyParse.int_of_string parts = Raise e -> e = ValueError.
Proof.
  induction parts as [|p ps IH]; cbn [map_res]; [discriminate|].
  destruct (PyParse.int_of_string p) as [n|e1] eqn:E; cbn [bind].
  - destruct (map_res PyParse.int_of_string ps) as [ns|e2]; cbn [bind]; [discriminate|].
    intros [= <-]. apply IH. reflexivity.
  - intros [= <-]. exact (int_of_string_raises _ _ E).
Qed.

Lemma map_res_int_nonneg (parts : list string) (fields : list Z) :
  Forall (fun p => minus_free p = true) parts ->
  map_res PyParse.int_of_string parts = Ret fields ->
  Forall (fun n => 0 <= n) fields.
Proof.
  intros Hp H. apply map_res_ret_inv in H.
  induction H as [|p n ps ns Hpn _ IH]; [constructor|].
  inversion Hp; subst. constructor; [|apply IH; assumption].
  apply (int_of_string_nonneg p); assumption.
Qed.

Lemma unparseable_zero (s : string) :
  unparseable s -> parse_timecode s = Ret (PyInt 0).
Proof.
  unfold unparseable, parse_timecode.
  destruct (contains ":" (strip s)).
  - intros [[H3 H4]|Hex].
    + apply Nat.eqb_neq in H3, H4. rewrite H3, H4. reflexivity.
    + rewrite (map_res_raise _ _ ValueError int_of_string_raises Hex).
      destruct (_ =? 4)%nat; [reflexivity|].
      destruct (_ =? 3)%nat; reflexivity.
  - intros H. rewrite H. reflexivity.
Qed.

Lemma parse_timecode_raises (s : string) (e : exn) :
  parse_timecode s = Raise e -> e = OverflowError.
Proof.
  unfold parse_timecode.
  destruct (contains ":" (strip s)).
  - destruct (_ =? 4)%nat.
    + destruct (map_res PyParse.int_of_string _) as [fields|e1] eqn:E; cbn [bind].
      * destruct fields as [|h [|m [|sec [|f [|? ?]]]]]; try discriminate.
        rewrite hms_seconds_value. cbn [bind]. fold (four_field_seconds h m sec f).
        destruct (four_field_seconds h m sec f) as [x|e2] eqn:E2; [discriminate|].
        rewrite (four_field_seconds_raises _ _ _ _ _ E2). intros [= <-]. reflexivity.
      * rewrite (map_res_int_raises _ _ E). discriminate.
    + destruct (_ =? 3)%nat; [|discriminate].
      destruct (map_res PyParse.int_of_string _) as [fields|e1] eqn:E; cbn [bind].
      * destruct fields as [|h [|m [|sec [|? ?]]]]; discriminate.
      * rewrite (map_res_int_raises _ _ E). discriminate.
  - destruct (PyParse.float_of_string _) as [f|e1] eqn:E; cbn [bind]; [discriminate|].
    rewrite (float_of_string_raises _ _ E). discriminate.
Qed.

Lemma parse_timecode_not_negative (s : string) (x : num) :
  contains "-" s = false -> parse_timecode s = Ret x -> not_negative x.
Proof.
  intros Hs. apply minus_free_contains in Hs.
  pose proof (all_chars_strip _ is_space _ Hs) as Ht. fold (strip s) in Ht.
  pose proof (all_chars_split _ ":" _ Ht) as Hparts.
  assert (Hzero : not_negative (PyInt 0)) by reflexivity.
  unfold parse_timecode.
  destruct (contains ":" (strip s)).
  - destruct (_ =? 4)%nat.
    + destruct (map_res PyParse.int_of_string _) as [fields|e1] eqn:E; cbn [bind].
      * pose proof (map_res_int_nonneg _ _ Hparts E) as Hf.
        destruct fields as [|h [|m [|sec [|f [|? ?]]]]];
          try (cbn [try_except value_or_type_error]; intros [= <-]; exact Hzero).
        rewrite hms_seconds_value. cbn [bind]. fold (four_field_seconds h m sec f).
        destruct (four_field_seconds h m sec f) as [y|e2] eqn:E2.
        -- intros [= <-].
           inversion Hf as [|? ? H0 Hf1]; subst. inversion Hf1 as [|? ? H1 Hf2]; subst.
           inversion Hf2 as [|? ? H2 Hf3]; subst. inversion Hf3 as [|? ? H3 _]; subst.
           exact (four_field_not_negative _ _ _ _ _ H0 H1 H2 H3 E2).
        -- rewrite (four_field_seconds_raises _ _ _ _ _ E2). discriminate.
      * rewrite (map_res_int_raises _ _ E). intros [= <-]. exact Hzero.
    + destruct (_ =? 3)%nat; [|intros [= <-]; exact Hzero].
      destruct (map_res PyParse.int_of_string _) as [fields|e1] eqn:E; cbn [bind].
      * pose proof (map_res_int_nonneg _ _ Hparts E) as Hf.
        destruct fields as [|h [|m [|sec [|? ?]]]];
          try (cbn [try_except value_or_type_error]; intros [= <-]; exact Hzero).
        rewrite hms_seconds_value. intros [= <-].
        inversion Hf as [|? ? H0 Hf1]; subst. inversion Hf1 as [|? ? H1 Hf2]; subst.
        inversion Hf2 as [|? ? H2 _]; subst.
        apply not_negative_int. lia.
      * rewrite (map_res_int_raises _ _ E). intros [= <-]. exact Hzero.
  - destruct (PyParse.float_of_string _) as [f|e1] eqn:E; cbn [bind].
    + intros [= <-]. apply not_negative_float.
      exact (float_of_string_sign _ _ Ht E).
    + rewrite (float_of_string_raises _ _ E). intros [= <-]. exact Hzero.
Qed.

End ParserContract.

(** C2, amended. For every string input the timecode parser returns 0 when
    the input is unparseable, no [ValueError] or [TypeError] escapes from it,
    and a value it returns is not negative as long as the text holds no
    minus sign.  (With a minus sign the value can be negative: the caller
    guards with [start_time >= 0].) *)
Theorem parse_timecode_contract (time_str : string) :
  (unparseable time_str -> parse_timecode time_str = Ret (PyInt 0)) /\
  (forall e, parse_timecode time_str = Raise e -> e = OverflowError) /\
  (forall x, contains "-" time_str = false ->
             parse_timecode time_str = Ret x -> not_negative x).
Proof.
  split; [apply unparseable_zero|].
  split; [apply parse_timecode_raises|].
  intros x. apply parse_timecode_not_negative.
Qed.

Lemma parse_timecode_contract_witness :
  parse_timecode "1:xx:3" = Ret (PyInt 0) /\
  not_negative (PyFloat (S754_finite false 6755399441055744 (-52))).
Proof.
  split.
  - refine (proj1 (parse_timecode_contract "1:xx:3") _).
    right. apply Exists_cons_tl, Exists_cons_hd. reflexivity.
  - refine (proj2 (proj2 (parse_timecode_contract "1.5")) _ eq_refl eq_refl).
Defined.

(** C2 as stated fails: the text [-5] parses to the float -5.0, which is
    below zero. *)
Lemma parse_timecode_negative_result :
  parse_timecode "-5" = Ret (PyFloat (S754_finite true 5629499534213120 (-50))) /\
  PyNum.ge (PyFloat (S754_finite true 5629499534213120 (-50))) (PyInt 0) = false /\
  PyNum.lt (PyFloat (S754_finite true 5629499534213120 (-50))) (PyInt 0) = true.
Proof. repeat split. Qed.
Section FormatFacts.

Import PyFmt.

Lemma digit_field_char (c : ascii) : PyParse.is_digit c = true -> field_char c = true.
Proof. destruct c as [[] [] [] [] [] [] [] []]; (reflexivity || discriminate). Qed.

Lemma string_of_uint_digits (d : Decimal.uint) :
  all_chars PyParse.is_digit (DecimalString.NilEmpty.string_of_uint d) = true.
Proof.
  induction d; cbn [DecimalString.NilEmpty.string_of_uint all_chars];
    [reflexivity | rewrite IHd; reflexivity ..].
Qed.

Lemma decimal_digits (n : Z) : all_chars PyParse.is_digit (decimal n) = true.
Proof.
  unfold decimal, DecimalString.NilZero.string_of_uint.
  destruct (N.to_uint (Z.to_N n)) eqn:E; try reflexivity;
    rewrite <- E; apply string_of_uint_digits.
Qed.

Lemma decimal_field_chars (n : Z) : all_chars field_char (decimal n) = true.
Proof.
  apply (all_chars_impl PyParse.is_digit); [apply digit_field_char | apply decimal_digits].
Qed.

Lemma zeros_chars (P : ascii -> bool) (n : nat) :
  P "0"%char = true -> all_chars P (zeros n) = true.
Proof.
  intros H. induction n as [|n IH]; cbn [zeros all_chars]; [reflexivity|].
  rewrite H, IH. reflexivity.
Qed.

Lemma zero_pad_chars (P : ascii -> bool) (w : nat) (sign body : string) :
  P "0"%char = true ->
  all_chars P (zero_pad w sign body) = all_chars P sign && all_chars P body.
Proof.
  intros H. unfold zero_pad. rewrite !all_chars_app, (zeros_chars P _ H). reflexivity.
Qed.

Lemma format_02d_chars (n : Z) : all_chars field_char (format_02d n) = true.
Proof.
  unfold format_02d. rewrite zero_pad_chars by reflexivity.
  rewrite decimal_field_chars. destruct (n <? 0); reflexivity.
Qed.

Lemma fixed3_field_chars (n : Z) : all_chars field_char (fixed3 n) = true.
Proof.
  unfold fixed3. rewrite !all_chars_app, zero_pad_chars by reflexivity.
  rewrite !decimal_field_chars. reflexivity.
Qed.

Lemma fixed3_not_int (n : Z) : all_chars int_char (fixed3 n) = false.
Proof.
  unfold fixed3. rewrite !all_chars_app. cbn [all_chars].
  change (int_char ".") with false. cbn [andb]. apply andb_false_r.
Qed.

Lemma format_06_3f_chars (x : num) (ss : string) :
  format_06_3f x = Ret ss ->
  all_chars field_char ss = true /\ all_chars int_char ss = false.
Proof.
  unfold format_06_3f. destruct (PyNum.to_float x) as [f|]; cbn [bind]; [|discriminate].
  intros [= <-].
  destruct f as [s|s| |s m e]; rewrite !zero_pad_chars by reflexivity.
  - rewrite fixed3_field_chars, fixed3_not_int, andb_false_r. destruct s; auto.
  - destruct s; auto.
  - auto.
  - rewrite fixed3_field_chars, fixed3_not_int, andb_false_r. destruct s; auto.
Qed.

End FormatFacts.

Section IntLiteralFacts.

Import PyParse.

Lemma all_chars_lstrip_inv (Q p : ascii -> bool) (s : string) :
  (forall c, p c = true -> Q c = true) ->
  all_chars Q (lstrip_by p s) = true -> all_chars Q s = true.
Proof.
  intros Hpq. induction s as [|c s IH]; cbn [lstrip_by all_chars]; [reflexivity|].
  destruct (p c) eqn:Hc; [|exact (fun H => H)].
  intros H. rewrite (Hpq _ Hc), (IH H). reflexivity.
Qed.

Lemma all_chars_rstrip_inv (Q p : ascii -> bool) (s : string) :
  (forall c, p c = true -> Q c = true) ->
  all_chars Q (rstrip_by p s) = true -> all_chars Q s = true.
Proof.
  intros Hpq. induction s as [|c s IH]; cbn [rstrip_by all_chars]; [reflexivity|].
  destruct (rstrip_by p s) as [|d r].
  - destruct (p c) eqn:Hc.
    + intros _. rewrite (Hpq _ Hc), IH; reflexivity.
    + cbn [all_chars]. intros H. apply andb_true_iff in H as [H _].
      rewrite H, IH; reflexivity.
  - change (all_chars Q (String c (String d r)))
      with (Q c && all_chars Q (String d r)).
    intros H. apply andb_true_iff in H as [H1 H2]. rewrite H1, (IH H2). reflexivity.
Qed.

Lemma digits_value_chars (s : string) (acc : Z) (b : bool) (n : Z) :
  digits_value s acc b = Some n -> all_chars int_char s = true.
Proof.
  revert acc b. induction s as [|c s IH]; intros acc b; cbn [digits_value all_chars];
    [reflexivity|].
  unfold int_char at 1. destruct (Ascii.eqb c "_") eqn:Eu.
  - destruct b; [|discriminate]. intros H. rewrite (IH _ _ H), orb_true_r. reflexivity.
  - destruct (is_digit c); [|discriminate]. intros H. rewrite (IH _ _ H). reflexivity.
Qed.

Lemma int_of_string_chars (s : string) (n : Z) :
  int_of_string s = Ret n -> all_chars int_char s = true.
Proof.
  unfold int_of_string. intros H.
  apply (all_chars_lstrip_inv int_char is_cspace).
  { intros c Hc. unfold int_char. rewrite Hc, !orb_true_r. reflexivity. }
  apply (all_chars_rstrip_inv int_char is_cspace).
  { intros c Hc. unfold int_char. rewrite Hc, !orb_true_r. reflexivity. }
  fold (strip_by is_cspace s).
  destruct (strip_by is_cspace s) as [|c t]; [reflexivity|].
  destruct (split_sign (String c t)) as [neg body] eqn:E.
  destruct (digits_value body 0 false) as [k|] eqn:Ek; [|discriminate].
  apply digits_value_chars in Ek.
  destruct c as [[] [] [] [] [] [] [] []]; cbn [split_sign] in E;
    injection E as <- <-; try exact Ek; cbn [all_chars]; rewrite Ek; reflexivity.
Qed.

Lemma not_int_raises (s : string) :
  all_chars int_char s = false -> int_of_string s = Raise ValueError.
Proof.
  intros H. destruct (int_of_string s) as [n|e] eqn:E.
  - rewrite (int_of_string_chars _ _ E) in H. discriminate.
  - rewrite (int_of_string_raises _ _ E). reflexivity.
Qed.

End IntLiteralFacts.

Section FormatThenParse.

Lemma field_chars_no_space (s : string) :
  all_chars field_char s = true -> all_chars (fun c => negb (is_space c)) s = true.
Proof.
  apply all_chars_impl. intros c H. apply andb_true_iff in H as [H _]. exact H.
Qed.

Lemma field_chars_no_colon (s : string) :
  all_chars field_char s = true ->
  all_chars (fun c => negb (Ascii.eqb c ":")) s = true.
Proof.
  apply all_chars_impl. intros c H. apply andb_true_iff in H as [_ H]. exact H.
Qed.

Lemma parse_formatted_fields (hh mm ss : string) :
  all_chars field_char hh = true ->
  all_chars field_char mm = true ->
  all_chars field_char ss = true ->
  all_chars int_char ss = false ->
  parse_timecode (hh ++ ":" ++ mm ++ ":" ++ ss) = Ret (PyInt 0).
Proof.
  intros Hh Hm Hs Hbad. unfold parse_timecode.
  assert (E : strip (hh ++ ":" ++ mm ++ ":" ++ ss) = (hh ++ ":" ++ mm ++ ":" ++ ss)%string).
  { apply strip_by_none. rewrite !all_chars_app.
    rewrite (field_chars_no_space _ Hh), (field_chars_no_space _ Hm),
      (field_chars_no_space _ Hs). reflexivity. }
  rewrite E, (contains_app ":" hh).
  change (hh ++ ":" ++ mm ++ ":" ++ ss)%string
    with (hh ++ String ":" (mm ++ String ":" ss))%string.
  rewrite (split_app _ _ _ (field_chars_no_colon _ Hh)),
    (split_app _ _ _ (field_chars_no_colon _ Hm)),
    (split_none _ _ (field_chars_no_colon _ Hs)).
  cbn [List.length Nat.eqb].
  rewrite (map_res_raise _ _ ValueError int_of_string_raises); [reflexivity|].
  apply Exists_cons_tl, Exists_cons_tl, Exists_cons_hd, not_int_raises, Hbad.
Qed.

End FormatThenParse.

(** C1 fails on the code.  Whatever number is formatted, the text that
    [format_timecode] produces has three colon-separated fields and its
    seconds field carries a decimal point, so [parse_timecode] reads it as
    unparseable and returns 0: the round trip loses the value. *)
Theorem format_then_parse_is_zero (v : num) (s : string) :
  format_timecode v = Ret s -> parse_timecode s = Ret (PyInt 0).
Proof.
  unfold format_timecode. intros H. bind_inv H. injection H as <-.
  match goal with
  | Hss : PyFmt.format_06_3f _ = Ret _ |- _ =>
      destruct (format_06_3f_chars _ _ Hss) as [Hfield Hbad]
  end.
  apply parse_formatted_fields; auto using format_02d_chars.
Qed.

Lemma format_then_parse_is_zero_witness :
  format_timecode (PyFloat (S754_finite false 6755399441055744 (-52)))
    = Ret "00:00:01.500" /\
  parse_timecode "00:00:01.500" = Ret (PyInt 0).
Proof.
  split; [reflexivity|].
  exact (format_then_parse_is_zero
           (PyFloat (S754_finite false 6755399441055744 (-52))) "00:00:01.500" eq_refl).
Defined.
(** C10, amended. The formatter does not carry the rounding of the seconds
    into the minutes: the non-negative input 59.9996, which lies within
    0.0005 of a whole minute, is formatted as [00:00:60.000], a text whose
    seconds field is not below 60. *)
Theorem seconds_field_rounds_to_sixty :
  exists f,
    PyParse.float_of_string "59.9996" = Ret f /\
    PyNum.ge (PyFloat f) (PyInt 0) = true /\
    near_minute (PyFloat f) 1 /\
    format_timecode (PyFloat f) = Ret "00:00:60.000".
Proof.
  exists (S754_finite false 8444193006324338 (-47)).
  split; [reflexivity|]. split; [reflexivity|]. split; [|reflexivity].
  eexists. split; [reflexivity|].
  split; vm_compute; discriminate.
Qed.

(** C10 as stated names 59.9995 as such an input; the double nearest to
    59.9995 lies below it and is formatted with the seconds field 59.999. *)
Lemma literal_59_9995_stays_below_sixty :
  PyParse.float_of_string "59.9995" = Ret (S754_finite false 8444178932575502 (-47)) /\
  format_timecode (PyFloat (S754_finite false 8444178932575502 (-47)))
  = Ret "00:00:59.999".
Proof. split; reflexivity. Qed.

(** C4 fails on the code.  A row with start [0] and end [inf] passes the
    test [start_time >= 0 and end_time > start_time], but formatting the
    infinite end time raises inside the loop, outside the per-row [try]:
    the upload answers with the processing error and keeps no row at all,
    not even the well-formed first row. *)
Theorem infinite_end_time_aborts_upload :
  parse_timecode "0" = Ret (PyFloat (S754_zero false)) /\
  parse_timecode "inf" = Ret (PyFloat (S754_infinity false)) /\
  PyNum.ge (PyFloat (S754_zero false)) (PyInt 0) = true /\
  PyNum.gt (PyFloat (S754_infinity false)) (PyFloat (S754_zero false)) = true /\
  format_timecode (PyFloat (S754_infinity false)) = Raise ValueError /\
  upload_csv
    {| columns := ["speaker"; "start_time"; "end_time"; "text"];
       rows := [ [("speaker", "A"); ("start_time", "1"); ("end_time", "2"); ("text", "Hi")];
                 [("speaker", "B"); ("start_time", "0"); ("end_time", "inf"); ("text", "Yo")] ] |}
  = ProcessingError ValueError.
Proof. repeat split. Qed.
Section OrderFacts.

Import PyNum.





Lemma ge_Qle (a b : num) (qa qb : Q) :
  value a = Some (Fin qa) -> value b = Some (Fin qb) ->
  (ge b a = true <-> (qa <= qb)%Q).
Proof.
  intros Ha Hb. unfold ge, compare. rewrite Ha, Hb. cbn [ext_compare].
  destruct (qb ?= qa)%Q eqn:E.
  - apply Qeq_alt in E. split; [|reflexivity]. intros _. rewrite E. apply Qle_refl.
  - apply Qlt_alt in E. split; [discriminate|]. intros H.
    exfalso. exact (Qlt_not_le _ _ E H).
  - apply Qgt_alt in E. split; [|reflexivity]. intros _. apply Qlt_le_weak, E.
Qed.

Lemma ge_trans (a b c : num) :
  finite a -> finite b -> finite c -> ge b a = true -> ge c b = true -> ge c a = true.
Proof.
  intros [qa Ha] [qb Hb] [qc Hc] H1 H2.
  apply (ge_Qle a b qa qb Ha Hb) in H1. apply (ge_Qle b c qb qc Hb Hc) in H2.
  apply (ge_Qle a c qa qc Ha Hc). exact (Qle_trans _ _ _ H1 H2).
Qed.

End OrderFacts.

Section SortFacts.

Lemma Forall_insert_by (P : Segment.t -> Prop) (x : Segment.t) (l : list Segment.t) :
  P x -> Forall P l -> Forall P (insert_by Segment.start_time x l).
Proof.
  intros Hx. induction 1 as [|y l Hy Hl IH]; cbn [insert_by].
  - repeat constructor. exact Hx.
  - destruct (PyNum.lt (Segment.start_time y) (Segment.start_time x)); repeat constructor; assumption.
Qed.

Lemma Forall_sort_by (P : Segment.t -> Prop) (l : list Segment.t) :
  Forall P l -> Forall P (sort_by Segment.start_time l).
Proof.
  induction 1 as [|x l Hx Hl IH]; [constructor|].
  apply Forall_insert_by; assumption.
Qed.



End SortFacts.

Section LoopFacts.

Lemma make_segment_fields (index : nat) (speaker : string) (start_time end_time : num)
  (text : string) (seg : Segment.t) :
  make_segment index speaker start_time end_time text = Ret seg ->
  Segment.id seg = index /\ Segment.start_time seg = start_time /\
  Segment.end_time seg = end_time.
Proof.
  unfold make_segment. intros H. bind_inv H. injection H as <-. auto.
Qed.

Lemma StronglySorted_snoc {A : Type} (R : A -> A -> Prop) (l : list A) (x : A) :
  StronglySorted R l -> Forall (fun y => R y x) l -> StronglySorted R (l ++ [x]).
Proof.
  induction 1 as [|y l Hs IH Hy]; cbn [app]; intros Hx.
  - repeat constructor.
  - inversion Hx; subst. constructor; [apply IH; assumption|].
    apply Forall_app. split; [exact Hy | repeat constructor; assumption].
Qed.

Lemma build_segments_invariant (c1 c2 c3 c4 : string) (rs : list row) :
  forall (index : nat) (segs : list Segment.t) (sp : list string)
         (segs' : list Segment.t) (sp' : list string),
    build_segments c1 c2 c3 c4 index rs segs sp = Ret (segs', sp') ->
    Forall guarded segs ->
    StronglySorted in_row_order segs ->
    Forall (fun g => (Segment.id g < index)%nat) segs ->
    Forall guarded segs' /\ StronglySorted in_row_order segs'.
Proof.
  induction rs as [|r rs IH]; intros index segs sp segs' sp'; cbn [build_segments].
  - intros [= <- <-]. auto.
  - intros H Hg Hs Hi.
    assert (Hi' : Forall (fun g => (Segment.id g < S index)%nat) segs).
    { revert Hi. apply Forall_impl. intros g. lia. }
    destruct (read_row c1 c2 c3 c4 r) as [[[[st en] spk] txt]|e].
    + destruct (PyNum.ge st (PyInt 0) && PyNum.gt en st) eqn:Eg.
      * apply bind_ret_inv in H as (seg & Hseg & H).
        apply make_segment_fields in Hseg as (Hid & Hst & Hen).
        apply andb_true_iff in Eg as [Eg1 Eg2].
        apply (IH _ _ _ _ _ H).
        -- apply Forall_app. split; [exact Hg|]. repeat constructor.
           ++ rewrite Hst. exact Eg1.
           ++ rewrite Hst, Hen. exact Eg2.
        -- apply StronglySorted_snoc; [exact Hs|].
           revert Hi. apply Forall_impl. intros g. unfold in_row_order. rewrite Hid. lia.
        -- apply Forall_app. split; [exact Hi'|].
           constructor; [|constructor]. rewrite Hid. lia.
      * apply (IH _ _ _ _ _ H); assumption.
    + apply (IH _ _ _ _ _ H); assumption.
Qed.

Lemma upload_csv_success (df : dataframe) (segs : list Segment.t)
  (sp : list string) (d : num) :
  upload_csv df = Success segs sp d ->
  exists segs0,
    segs = sort_by Segment.start_time segs0 /\
    Forall guarded segs0 /\ StronglySorted in_row_order segs0.
Proof.
  unfold upload_csv.
  destruct (_ || _); [discriminate|].
  destruct (speaker_col _) as [c3|]; [|discriminate].
  destruct (start_time_col _) as [c1|]; [|discriminate].
  destruct (end_time_col _) as [c2|]; [|discriminate].
  destruct (find_source_column _) as [c4|]; [|discriminate].
  destruct (build_segments _ _ _ _ _ _ _ _) as [[segs0 sp0]|e] eqn:E; [|discriminate].
  intros [= <- _ _]. exists segs0. split; [reflexivity|].
  apply (build_segments_invariant _ _ _ _ _ _ _ _ _ _ E); constructor.
Qed.

End LoopFacts.


Section RetentionFacts.

Variables c1 c2 c3 c4 : string.



End RetentionFacts.

Section SortMembers.

Lemma in_insert_by (x g : Segment.t) (l : list Segment.t) :
  In g (insert_by Segment.start_time x l) <-> g = x \/ In g l.
Proof.
  induction l as [|y l IH]; cbn [insert_by].
  - cbn [In]. intuition.
  - destruct (PyNum.lt _ _); cbn [In]; [rewrite IH|]; intuition.
Qed.

Lemma in_sort_by (g : Segment.t) (l : list Segment.t) :
  In g (sort_by Segment.start_time l) <-> In g l.
Proof.
  induction l as [|x l IH]; [reflexivity|].
  change (sort_by Segment.start_time (x :: l))
    with (insert_by Segment.start_time x (sort_by Segment.start_time l)).
  rewrite in_insert_by, IH. cbn [In]. intuition.
Qed.

End SortMembers.

(** X1. Whenever [upload_csv] returns segments, each one satisfies
    [start_time >= 0] and [end_time > start_time]. *)
Theorem returned_segments_pass_the_guard (df : dataframe) (segs : list Segment.t)
  (sp : list string) (d : num) :
  upload_csv df = Success segs sp d -> Forall guarded segs.
Proof.
  intros H. apply upload_csv_success in H as (segs0 & -> & Hg & _).
  apply Forall_sort_by, Hg.
Qed.

Lemma returned_segments_pass_the_guard_witness :
  Forall guarded
    (match upload_csv
       {| columns := ["speaker"; "start_time"; "end_time"; "line"];
          rows := [ [("speaker", "A"); ("start_time", "5"); ("end_time", "4"); ("line", "x")];
                    [("speaker", "B"); ("start_time", "00:00:01"); ("end_time", "2.5"); ("line", "y")] ] |}
     with
     | Success segs _ _ => segs
     | _ => []
     end).
Proof.
  refine (returned_segments_pass_the_guard
    {| columns := ["speaker"; "start_time"; "end_time"; "line"];
       rows := [ [("speaker", "A"); ("start_time", "5"); ("end_time", "4"); ("line", "x")];
                 [("speaker", "B"); ("start_time", "00:00:01"); ("end_time", "2.5"); ("line", "y")] ] |}
    _ _ _ _).
  vm_compute. reflexivity.
Defined.



(** X3. A four-field timecode whose frame count is beyond the range of a double
    makes [parse_timecode] raise [OverflowError], which its handlers for
    [ValueError] and [TypeError] do not catch. *)
Theorem parse_timecode_can_overflow :
  parse_timecode ("0:0:0:9" ++ PyFmt.zeros 400) = Raise OverflowError.
Proof. vm_compute. reflexivity. Qed.

(** X4. A retained segment can have the duration 0.0: an int start time that is
    rounded up to the float end time when the two are subtracted. *)
Theorem retained_segment_with_zero_duration :
  exists g sp d,
    upload_csv
      {| columns := ["speaker"; "start_time"; "end_time"; "text"];
         rows := [ [("speaker", "A"); ("start_time", "0:0:9007199254740995");
                    ("end_time", "9007199254740996"); ("text", "Hi")] ] |}
    = Success [g] sp d /\
    Segment.start_time g = PyInt 9007199254740995 /\
    PyNum.gt (Segment.end_time g) (Segment.start_time g) = true /\
    Segment.duration g = PyFloat (S754_zero false).
Proof.
  eexists. eexists. eexists. split; [vm_compute; reflexivity|].
  repeat split.
Qed.
Section MoreStringFacts.

Lemma length_app (a b : string) :
  String.length (a ++ b) = (String.length a + String.length b)%nat.
Proof.
  induction a as [|c a IH]; cbn [append String.length]; [reflexivity|].
  rewrite IH. reflexivity.
Qed.





End MoreStringFacts.

(** X5. [parse_timecode] ignores whitespace around its input: padding a
    text with blanks on either side does not change what it parses to. *)
Theorem parse_timecode_ignores_blanks (ws1 time_str ws2 : string) :
  blank ws1 -> blank ws2 ->
  parse_timecode (ws1 ++ time_str ++ ws2) = parse_timecode time_str.
Proof.
  intros H1 H2. unfold parse_timecode. rewrite (strip_pad _ _ _ H1 H2). reflexivity.
Qed.

Lemma parse_timecode_ignores_blanks_witness :
  parse_timecode "  00:01:02:15 " = parse_timecode "00:01:02:15".
Proof.
  exact (parse_timecode_ignores_blanks "  " "00:01:02:15" " " eq_refl eq_refl).
Defined.

Section FormatShape.

Import PyFmt.

Lemma zero_pad_length (w : nat) (sign body : string) :
  (w <= String.length (zero_pad w sign body))%nat.
Proof.
  unfold zero_pad. rewrite !length_app.
  assert (H : String.length (zeros (w - String.length sign - String.length body))
              = (w - String.length sign - String.length body)%nat).
  { generalize (w - String.length sign - String.length body)%nat.
    induction n as [|n IH]; cbn [zeros String.length]; [reflexivity|].
    rewrite IH. reflexivity. }
  rewrite H. lia.
Qed.

Lemma format_02d_length (n : Z) : (2 <= String.length (format_02d n))%nat.
Proof. apply zero_pad_length. Qed.

Lemma format_06_3f_length (x : num) (ss : string) :
  format_06_3f x = Ret ss -> (6 <= String.length ss)%nat.
Proof.
  unfold format_06_3f. destruct (PyNum.to_float x) as [f|]; cbn [bind]; [|discriminate].
  intros [= <-]. destruct f; apply zero_pad_length.
Qed.



End FormatShape.

(** X7. Whatever number it formats, the text of [format_timecode] is made
    of three fields separated by two colons, hours and minutes of at least
    two characters and seconds of at least six, and holds no whitespace: it
    is at least 12 characters long. *)
Theorem format_timecode_shape (v : num) (s : string) :
  format_timecode v = Ret s ->
  exists hh mm ss,
    s = (hh ++ ":" ++ mm ++ ":" ++ ss)%string /\
    no_colon hh /\ no_colon mm /\ no_colon ss /\
    (2 <= String.length hh)%nat /\ (2 <= String.length mm)%nat /\
    (6 <= String.length ss)%nat /\
    (12 <= String.length s)%nat /\
    all_chars (fun c => negb (is_space c)) s = true.
Proof.
  unfold format_timecode. intros H. bind_inv H. injection H as <-.
  match goal with
  | Hss : PyFmt.format_06_3f _ = Ret ?ss |- _ =>
      destruct (format_06_3f_chars _ _ Hss) as [Hfield _];
      pose proof (format_06_3f_length _ _ Hss) as Hlen
  end.
  match goal with
  | |- context [(PyFmt.format_02d ?a ++ String ":" (PyFmt.format_02d ?b ++ String ":" ?c))%string] =>
      exists (PyFmt.format_02d a), (PyFmt.format_02d b), c;
      pose proof (format_02d_chars a) as Ha; pose proof (format_02d_chars b) as Hb;
      pose proof (format_02d_length a) as La; pose proof (format_02d_length b) as Lb
  end.
  split; [reflexivity|].
  split; [apply no_colon_chars, field_chars_no_colon, Ha|].
  split; [apply no_colon_chars, field_chars_no_colon, Hb|].
  split; [apply no_colon_chars, field_chars_no_colon, Hfield|].
  split; [exact La|]. split; [exact Lb|]. split; [exact Hlen|].
  split.
  - rewrite length_app. cbn [String.length]. rewrite length_app. cbn [String.length]. lia.
  - rewrite all_chars_app. cbn [all_chars]. rewrite all_chars_app. cbn [all_chars].
    rewrite (field_chars_no_space _ Ha), (field_chars_no_space _ Hb),
      (field_chars_no_space _ Hfield). reflexivity.
Qed.

Lemma format_timecode_shape_witness :
  exists hh mm ss,
    "01:02:05.250" = (hh ++ ":" ++ mm ++ ":" ++ ss)%string /\
    no_colon hh /\ no_colon mm /\ no_colon ss /\
    (2 <= String.length hh)%nat /\ (2 <= String.length mm)%nat /\
    (6 <= String.length ss)%nat /\
    (12 <= String.length "01:02:05.250")%nat /\
    all_chars (fun c => negb (is_space c)) "01:02:05.250" = true.
Proof.
  exact (format_timecode_shape
           (PyFloat (S754_finite false 8191911382745088 (-41))) "01:02:05.250" eq_refl).
Defined.

Section UploadInversion.

Lemma format_timecode_finite (x : num) (s : string) :
  format_timecode x = Ret s -> finite x.
Proof.
  destruct x as [z|f]; intros H.
  - exists (inject_Z z). reflexivity.
  - destruct f as [s0|s0| |s0 m e].
    + exists 0%Q. reflexivity.
    + destruct s0; vm_compute in H; discriminate.
    + vm_compute in H. discriminate.
    + eexists. reflexivity.
Qed.

Lemma make_segment_inv (index : nat) (speaker : string) (start_time end_time : num)
  (text : string) (seg : Segment.t) :
  make_segment index speaker start_time end_time text = Ret seg ->
  Segment.id seg = index /\ Segment.speaker seg = speaker /\
  Segment.start_time seg = start_time /\ Segment.end_time seg = end_time /\
  Segment.text seg = text /\
  format_timecode start_time = Ret (Segment.start_time_formatted seg) /\
  format_timecode end_time = Ret (Segment.end_time_formatted seg) /\
  PyNum.sub end_time start_time = Ret (Segment.duration seg).
Proof.
  unfold make_segment. intros H. bind_inv H. injection H as <-.
  cbn. auto 10.
Qed.

Lemma build_segments_Forall (P : Segment.t -> Prop) (c1 c2 c3 c4 : string) :
  (forall index spk st en txt seg,
      make_segment index spk st en txt = Ret seg -> P seg) ->
  forall (rs : list row) (index : nat) (segs : list Segment.t) (sp : list string)
         (segs' : list Segment.t) (sp' : list string),
    build_segments c1 c2 c3 c4 index rs segs sp = Ret (segs', sp') ->
    Forall P segs -> Forall P segs'.
Proof.
  intros HP. induction rs as [|r rs IH]; intros index segs sp segs' sp';
    cbn [build_segments].
  - intros [= <- <-]. auto.
  - destruct (read_row c1 c2 c3 c4 r) as [[[[st en] spk] txt]|e].
    + destruct (PyNum.ge st (PyInt 0) && PyNum.gt en st).
      * intros H Hs. apply bind_ret_inv in H as (seg & Hseg & H).
        apply (IH _ _ _ _ _ H). apply Forall_app. split; [exact Hs|].
        constructor; [|constructor]. exact (HP _ _ _ _ _ _ Hseg).
      * apply IH.
    + apply IH.
Qed.

Lemma upload_csv_success_inv (df : dataframe) (segs : list Segment.t)
  (sp : list string) (d : num) :
  upload_csv df = Success segs sp d ->
  exists c1 c2 c3 c4 segs0,
    build_segments c1 c2 c3 c4 0 (rows df) [] [] = Ret (segs0, sp) /\
    segs = sort_by Segment.start_time segs0 /\
    d = max_or_zero (map Segment.end_time segs).
Proof.
  unfold upload_csv.
  destruct (_ || _); [discriminate|].
  destruct (speaker_col _) as [c3|]; [|discriminate].
  destruct (start_time_col _) as [c1|]; [|discriminate].
  destruct (end_time_col _) as [c2|]; [|discriminate].
  destruct (find_source_column _) as [c4|]; [|discriminate].
  cbn [rows strip_columns].
  destruct (build_segments _ _ _ _ _ _ _ _) as [[segs0 sp0]|e] eqn:E; [|discriminate].
  intros [= <- <- <-]. exists c1, c2, c3, c4, segs0. auto.
Qed.

End UploadInversion.

(** X9. Whenever [upload_csv] returns segments, the fields of each segment
    agree: its formatted times are [format_timecode] of its times, its
    duration is [end_time - start_time], and its times are finite numbers
    (never NaN or an infinity). *)
Theorem returned_segments_are_consistent (df : dataframe) (segs : list Segment.t)
  (sp : list string) (d : num) :
  upload_csv df = Success segs sp d -> Forall consistent segs.
Proof.
  intros H. apply upload_csv_success_inv in H as (c1 & c2 & c3 & c4 & segs0 & E & -> & _).
  apply Forall_sort_by.
  eapply (build_segments_Forall consistent); [|exact E|constructor].
  intros index spk st en txt seg Hseg.
  apply make_segment_inv in Hseg as (_ & _ & Hst & Hen & _ & Hf1 & Hf2 & Hd).
  unfold consistent. rewrite Hst, Hen.
  repeat split; try assumption.
  - exact (format_timecode_finite _ _ Hf1).
  - exact (format_timecode_finite _ _ Hf2).
Qed.

Lemma returned_segments_are_consistent_witness :
  Forall consistent
    (match upload_csv
       {| columns := ["speaker"; "start_time"; "end_time"; "line"];
          rows := [ [("speaker", "A"); ("start_time", "00:00:01:15"); ("end_time", "4"); ("line", "x")];
                    [("speaker", "B"); ("start_time", "00:00:01"); ("end_time", "2.5"); ("line", "y")] ] |}
     with
     | Success segs _ _ => segs
     | _ => []
     end).
Proof.
  refine (returned_segments_are_consistent
    {| columns := ["speaker"; "start_time"; "end_time"; "line"];
       rows := [ [("speaker", "A"); ("start_time", "00:00:01:15"); ("end_time", "4"); ("line", "x")];
                 [("speaker", "B"); ("start_time", "00:00:01"); ("end_time", "2.5"); ("line", "y")] ] |}
    _ _ _ _).
  vm_compute. reflexivity.
Defined.
Section SpeakerFacts.

Lemma NoDup_snoc {A : Type} (l : list A) (x : A) :
  NoDup l -> ~ In x l -> NoDup (l ++ [x]).
Proof.
  induction 1 as [|y l Hy Hl IH]; cbn [app]; intros Hx.
  - constructor; [intros []|constructor].
  - constructor.
    + rewrite in_app_iff. intros [H|[H|[]]]; [contradiction|].
      apply Hx. left. symmetry. exact H.
    + apply IH. intros H. apply Hx. right. exact H.
Qed.

Lemma set_add_NoDup (x : string) (s : list string) : NoDup s -> NoDup (set_add x s).
Proof.
  intros H. unfold set_add. destruct (str_in x s) eqn:E; [exact H|].
  apply NoDup_snoc; [exact H|]. intros Hin. apply str_in_In in Hin. congruence.
Qed.

Lemma set_add_In (x y : string) (s : list string) :
  In y (set_add x s) <-> y = x \/ In y s.
Proof.
  unfold set_add. destruct (str_in x s) eqn:E.
  - apply str_in_In in E. split; [auto|]. intros [->|H]; assumption.
  - rewrite in_app_iff. cbn [In]. intuition.
Qed.

Lemma build_segments_speakers (c1 c2 c3 c4 : string) (rs : list row) :
  forall (index : nat) (segs : list Segment.t) (sp : list string)
         (segs' : list Segment.t) (sp' : list string),
    build_segments c1 c2 c3 c4 index rs segs sp = Ret (segs', sp') ->
    NoDup sp ->
    (forall s, In s sp <-> exists g, In g segs /\ Segment.speaker g = s) ->
    NoDup sp' /\
    (forall s, In s sp' <-> exists g, In g segs' /\ Segment.speaker g = s).
Proof.
  induction rs as [|r rs IH]; intros index segs sp segs' sp'; cbn [build_segments].
  - intros [= <- <-]. auto.
  - destruct (read_row c1 c2 c3 c4 r) as [[[[st en] spk] txt]|e].
    + destruct (PyNum.ge st (PyInt 0) && PyNum.gt en st).
      * intros H Hn Hs. apply bind_ret_inv in H as (seg & Hseg & H).
        apply make_segment_inv in Hseg as (_ & Hspk & _).
        apply (IH _ _ _ _ _ H); [apply set_add_NoDup, Hn|].
        intros s. rewrite set_add_In, Hs. split.
        -- intros [->|(g & Hg & Hgs)].
           ++ exists seg. split; [apply in_app_iff; right; left; reflexivity | exact Hspk].
           ++ exists g. split; [apply in_app_iff; left; exact Hg | exact Hgs].
        -- intros (g & Hg & Hgs). apply in_app_iff in Hg as [Hg|[<-|[]]].
           ++ right. exists g. auto.
           ++ left. rewrite <- Hgs, Hspk. reflexivity.
      * apply IH.
    + apply IH.
Qed.

End SpeakerFacts.

(** X10. Whenever [upload_csv] returns segments, the speakers it returns
    are, without repetition, exactly the speakers of the returned
    segments. *)
Theorem speakers_are_those_of_the_segments (df : dataframe) (segs : list Segment.t)
  (sp : list string) (d : num) :
  upload_csv df = Success segs sp d ->
  NoDup sp /\
  forall s, In s sp <-> exists g, In g segs /\ Segment.speaker g = s.
Proof.
  intros H. apply upload_csv_success_inv in H as (c1 & c2 & c3 & c4 & segs0 & E & -> & _).
  apply build_segments_speakers in E as [Hn Hs].
  - split; [exact Hn|]. intros s. rewrite Hs.
    split; intros (g & Hg & Hgs); exists g; (split; [apply in_sort_by|]); assumption.
  - constructor.
  - intros s. split; [intros []|intros (g & [] & _)].
Qed.

Lemma speakers_are_those_of_the_segments_witness :
  NoDup ["B"; "A"] /\
  forall s, In s ["B"; "A"] <->
    exists g,
      In g (match upload_csv
              {| columns := ["speaker"; "start_time"; "end_time"; "line"];
                 rows := [ [("speaker", "B"); ("start_time", "3"); ("end_time", "4"); ("line", "x")];
                           [("speaker", "A"); ("start_time", "1"); ("end_time", "2"); ("line", "y")];
                           [("speaker", "B"); ("start_time", "5"); ("end_time", "6"); ("line", "z")] ] |}
            with
            | Success segs _ _ => segs
            | _ => []
            end) /\
      Segment.speaker g = s.
Proof.
  refine (speakers_are_those_of_the_segments
    {| columns := ["speaker"; "start_time"; "end_time"; "line"];
       rows := [ [("speaker", "B"); ("start_time", "3"); ("end_time", "4"); ("line", "x")];
                 [("speaker", "A"); ("start_time", "1"); ("end_time", "2"); ("line", "y")];
                 [("speaker", "B"); ("start_time", "5"); ("end_time", "6"); ("line", "z")] ] |}
    _ _ _ _).
  vm_compute. reflexivity.
Defined.

Section MaximumFacts.

Import PyNum.

Lemma ge_refl (a : num) : finite a -> ge a a = true.
Proof.
  intros [q Hq]. apply (ge_Qle a a q q Hq Hq). apply Qle_refl.
Qed.

Lemma gt_ge (a b : num) : finite a -> finite b -> gt a b = true -> ge a b = true.
Proof.
  intros _ _. unfold gt, ge. destruct (compare a b) as [[]|]; congruence.
Qed.

Lemma not_gt_ge (a b : num) : finite a -> finite b -> gt a b = false -> ge b a = true.
Proof.
  intros [qa Ha] [qb Hb] H. apply (ge_Qle a b qa qb Ha Hb).
  unfold gt, compare in H. rewrite Ha, Hb in H. cbn [ext_compare] in H.
  destruct (qa ?= qb)%Q eqn:E; try discriminate.
  - apply Qeq_alt in E. rewrite E. apply Qle_refl.
  - apply Qlt_alt in E. apply Qlt_le_weak, E.
Qed.

Lemma fold_max (xs : list num) :
  forall m, finite m -> Forall finite xs ->
    let r := fold_left (fun m y => if gt y m then y else m) xs m in
    (r = m \/ In r xs) /\ finite r /\ ge r m = true /\
    Forall (fun y => ge r y = true) xs.
Proof.
  induction xs as [|x xs IH]; intros m Hm Hxs; cbn [fold_left].
  - repeat split; [left; reflexivity | exact Hm | apply ge_refl, Hm | constructor].
  - inversion Hxs as [|? ? Hx Hxs']; subst.
    destruct (gt x m) eqn:E.
    + destruct (IH x Hx Hxs') as (Hin & Hf & Hge & Hall).
      repeat split.
      * right. destruct Hin as [->|Hin]; [left; reflexivity | right; exact Hin].
      * exact Hf.
      * apply (ge_trans m x _ Hm Hx Hf); [apply gt_ge; assumption | exact Hge].
      * constructor; assumption.
    + destruct (IH m Hm Hxs') as (Hin & Hf & Hge & Hall).
      repeat split.
      * destruct Hin as [->|Hin]; [left; reflexivity | right; right; exact Hin].
      * exact Hf.
      * exact Hge.
      * constructor; [|exact Hall].
        apply (ge_trans x m _ Hx Hm Hf); [apply not_gt_ge; assumption | exact Hge].
Qed.

Lemma max_or_zero_spec (xs : list num) :
  Forall finite xs -> xs <> [] ->
  In (max_or_zero xs) xs /\ Forall (fun y => ge (max_or_zero xs) y = true) xs.
Proof.
  destruct xs as [|x xs]; [congruence|]. intros H _.
  inversion H as [|? ? Hx Hxs]; subst. cbn [max_or_zero].
  destruct (fold_max xs x Hx Hxs) as (Hin & Hf & Hge & Hall).
  split; [destruct Hin as [->|Hin]; [left; reflexivity | right; exact Hin]|].
  constructor; assumption.
Qed.

Lemma returned_end_times_finite (df : dataframe) (segs : list Segment.t)
  (sp : list string) (d : num) :
  upload_csv df = Success segs sp d ->
  Forall (fun g => finite (Segment.end_time g)) segs.
Proof.
  intros H. apply upload_csv_success_inv in H as (c1 & c2 & c3 & c4 & segs0 & E & -> & _).
  apply Forall_sort_by.
  eapply (build_segments_Forall (fun g => finite (Segment.end_time g)));
    [|exact E|constructor].
  intros index spk st en txt seg Hseg.
  apply make_segment_inv in Hseg as (_ & _ & _ & Hen & _ & _ & Hf2 & _).
  rewrite Hen. exact (format_timecode_finite _ _ Hf2).
Qed.

End MaximumFacts.

(** X11. Whenever [upload_csv] returns segments, the total duration is 0
    when no segment is returned, and otherwise it is the end time of one of
    the segments and no segment ends later. *)
Theorem total_duration_is_latest_end (df : dataframe) (segs : list Segment.t)
  (sp : list string) (d : num) :
  upload_csv df = Success segs sp d ->
  (segs = [] -> d = PyInt 0) /\
  (segs <> [] ->
   (exists g, In g segs /\ d = Segment.end_time g) /\
   Forall (fun g => PyNum.ge d (Segment.end_time g) = true) segs).
Proof.
  intros H. pose proof (returned_end_times_finite df segs sp d H) as Hc.
  apply upload_csv_success_inv in H as (c1 & c2 & c3 & c4 & segs0 & _ & _ & ->).
  split; [intros ->; reflexivity|]. intros Hne.
  assert (Hfin : Forall finite (map Segment.end_time segs)).
  { apply Forall_map. exact Hc. }
  assert (Hne' : map Segment.end_time segs <> []) by (destruct segs; [congruence | discriminate]).
  destruct (max_or_zero_spec _ Hfin Hne') as [Hin Hall]. split.
  - apply in_map_iff in Hin as (g & Hg & Hin). exists g. auto.
  - rewrite Forall_map in Hall. exact Hall.
Qed.

Lemma total_duration_is_latest_end_witness :
  exists g,
    In g (match upload_csv
            {| columns := ["speaker"; "start_time"; "end_time"; "line"];
               rows := [ [("speaker", "B"); ("start_time", "3"); ("end_time", "9"); ("line", "x")];
                         [("speaker", "A"); ("start_time", "4"); ("end_time", "00:00:05"); ("line", "y")] ] |}
          with
          | Success segs _ _ => segs
          | _ => []
          end) /\
    match upload_csv
            {| columns := ["speaker"; "start_time"; "end_time"; "line"];
               rows := [ [("speaker", "B"); ("start_time", "3"); ("end_time", "9"); ("line", "x")];
                         [("speaker", "A"); ("start_time", "4"); ("end_time", "00:00:05"); ("line", "y")] ] |}
    with
    | Success _ _ d => d
    | _ => PyInt 0
    end = Segment.end_time g.
Proof.
  refine (proj1 (proj2 (total_duration_is_latest_end
    {| columns := ["speaker"; "start_time"; "end_time"; "line"];
       rows := [ [("speaker", "B"); ("start_time", "3"); ("end_time", "9"); ("line", "x")];
                 [("speaker", "A"); ("start_time", "4"); ("end_time", "00:00:05"); ("line", "y")] ] |}
    _ _ _ _) _)).
  - vm_compute. reflexivity.
  - discriminate.
Defined.
Section DroppedRows.

Lemma build_segments_none (c1 c2 c3 c4 : string) (rs : list row) :
  Forall (fun r => row_passes c1 c2 c3 c4 r = false) rs ->
  forall (index : nat) (segs : list Segment.t) (sp : list string),
    build_segments c1 c2 c3 c4 index rs segs sp = Ret (segs, sp).
Proof.
  induction 1 as [|r rs Hr _ IH]; intros index segs sp; cbn [build_segments];
    [reflexivity|].
  unfold row_passes in Hr.
  destruct (read_row c1 c2 c3 c4 r) as [[[[st en] spk] txt]|e]; [|apply IH].
  rewrite Hr. apply IH.
Qed.

Lemma found_is_truthy (test : string -> bool) (l : list string) (c : string) :
  (forall h, test h = true -> h <> EmptyString) ->
  find test l = Some c -> falsy (Some c) = false.
Proof.
  intros Hne H. destruct (find_some_test _ _ _ H) as [Hc _].
  specialize (Hne _ Hc). destruct c; [congruence | reflexivity].
Qed.

Lemma upload_csv_resolved (df : dataframe) (c1 c2 c3 c4 : string) :
  start_time_col (find_required_cols (strip_columns df)) = Some c1 ->
  end_time_col (find_required_cols (strip_columns df)) = Some c2 ->
  speaker_col (find_required_cols (strip_columns df)) = Some c3 ->
  find_source_column (strip_columns df) = Some c4 ->
  upload_csv df =
  match build_segments c1 c2 c3 c4 0 (rows df) [] [] with
  | Raise e => ProcessingError e
  | Ret (segments, speakers) =>
      Success (sort_by Segment.start_time segments) speakers
        (max_or_zero (map Segment.end_time (sort_by Segment.start_time segments)))
  end.
Proof.
  intros H1 H2 H3 H4. unfold upload_csv. rewrite H1, H2, H3, H4.
  rewrite resolved_start_time_col in H1. rewrite resolved_end_time_col in H2.
  rewrite resolved_speaker_col in H3. rewrite resolved_source_col in H4.
  rewrite (found_is_truthy _ _ _ (role_test_nonempty StartTime) H1),
    (found_is_truthy _ _ _ (role_test_nonempty EndTime) H2),
    (found_is_truthy _ _ _ (role_test_nonempty Speaker) H3),
    (found_is_truthy _ _ _ (role_test_nonempty SourceText) H4).
  reflexivity.
Qed.

Lemma parse_of_formatted (t : string) :
  formatted t -> parse_timecode t = Ret (PyInt 0).
Proof.
  intros [v H]. unfold format_timecode in H. bind_inv H. injection H as <-.
  match goal with
  | Hss : PyFmt.format_06_3f _ = Ret _ |- _ =>
      destruct (format_06_3f_chars _ _ Hss) as [Hfield Hbad]
  end.
  apply parse_formatted_fields; auto using format_02d_chars.
Qed.

Lemma formatted_row_fails (c1 c2 c3 c4 : string) (r : row) :
  formatted_cell r c1 -> formatted_cell r c2 -> row_passes c1 c2 c3 c4 r = false.
Proof.
  intros (t1 & H1 & F1) (t2 & H2 & F2). unfold row_passes, read_row.
  rewrite H1. cbn [bind]. rewrite (parse_of_formatted _ F1). cbn [bind].
  rewrite H2. cbn [bind]. rewrite (parse_of_formatted _ F2). cbn [bind].
  destruct (row_get r c3); cbn [bind]; [|reflexivity].
  destruct (row_get r c4); cbn [bind]; reflexivity.
Qed.

End DroppedRows.

(** X12. When the four roles are resolved and no row passes the test of
    the loop (its cells cannot be read or parsed, or
    [start_time >= 0 and end_time > start_time] fails), [upload_csv] answers
    with a success that holds no segment, no speaker and the total duration
    0: dropping every row is not an error.  This covers the data frame
    without rows. *)
Theorem no_row_kept_is_an_empty_success (df : dataframe) (c1 c2 c3 c4 : string) :
  start_time_col (find_required_cols (strip_columns df)) = Some c1 ->
  end_time_col (find_required_cols (strip_columns df)) = Some c2 ->
  speaker_col (find_required_cols (strip_columns df)) = Some c3 ->
  find_source_column (strip_columns df) = Some c4 ->
  Forall (fun r => row_passes c1 c2 c3 c4 r = false) (rows df) ->
  upload_csv df = Success [] [] (PyInt 0).
Proof.
  intros H1 H2 H3 H4 Hrows.
  rewrite (upload_csv_resolved df c1 c2 c3 c4 H1 H2 H3 H4).
  rewrite (build_segments_none _ _ _ _ _ Hrows). reflexivity.
Qed.

Lemma no_row_kept_is_an_empty_success_witness :
  upload_csv
    {| columns := ["Speaker"; "start time"; "End_Time"; "script"];
       rows := [ [("Speaker", "A"); ("start time", "5"); ("End_Time", "4"); ("script", "x")];
                 [("Speaker", "B"); ("start time", "nan"); ("End_Time", "2"); ("script", "y")];
                 [("Speaker", "C"); ("start time", "-1"); ("End_Time", "2"); ("script", "z")] ] |}
  = Success [] [] (PyInt 0).
Proof.
  refine (no_row_kept_is_an_empty_success
    {| columns := ["Speaker"; "start time"; "End_Time"; "script"];
       rows := [ [("Speaker", "A"); ("start time", "5"); ("End_Time", "4"); ("script", "x")];
                 [("Speaker", "B"); ("start time", "nan"); ("End_Time", "2"); ("script", "y")];
                 [("Speaker", "C"); ("start time", "-1"); ("End_Time", "2"); ("script", "z")] ] |}
    "start time" "End_Time" "Speaker" "script" eq_refl eq_refl eq_refl eq_refl _).
  repeat constructor.
Defined.

(** X13. Formatted timecodes are not read back: when the four roles are
    resolved and, in every row, the start and the end cell hold texts that
    [format_timecode] produced, [upload_csv] keeps no row at all and
    answers with the empty success. *)
Theorem formatted_times_are_not_read_back (df : dataframe) (c1 c2 c3 c4 : string) :
  start_time_col (find_required_cols (strip_columns df)) = Some c1 ->
  end_time_col (find_required_cols (strip_columns df)) = Some c2 ->
  speaker_col (find_required_cols (strip_columns df)) = Some c3 ->
  find_source_column (strip_columns df) = Some c4 ->
  Forall (fun r => formatted_cell r c1 /\ formatted_cell r c2) (rows df) ->
  upload_csv df = Success [] [] (PyInt 0).
Proof.
  intros H1 H2 H3 H4 Hrows.
  rewrite (upload_csv_resolved df c1 c2 c3 c4 H1 H2 H3 H4).
  rewrite build_segments_none; [reflexivity|].
  revert Hrows. apply Forall_impl. intros r [F1 F2].
  apply formatted_row_fails; assumption.
Qed.

Lemma formatted_times_are_not_read_back_witness :
  upload_csv
    {| columns := ["speaker"; "start_time"; "end_time"; "transcription"];
       rows := [ [("speaker", "A"); ("start_time", "00:00:01.000");
                  ("end_time", "00:00:03.000"); ("transcription", "Hi")] ] |}
  = Success [] [] (PyInt 0).
Proof.
  refine (formatted_times_are_not_read_back
    {| columns := ["speaker"; "start_time"; "end_time"; "transcription"];
       rows := [ [("speaker", "A"); ("start_time", "00:00:01.000");
                  ("end_time", "00:00:03.000"); ("transcription", "Hi")] ] |}
    "start_time" "end_time" "speaker" "transcription" eq_refl eq_refl eq_refl eq_refl _).
  constructor; [|constructor]. split.
  - exists "00:00:01.000". split; [reflexivity|].
    exists (PyInt 1). reflexivity.
  - exists "00:00:03.000". split; [reflexivity|].
    exists (PyInt 3). reflexivity.
Defined.
Section DictFacts.

Lemma row_get_raises (d : row) (k : string) (e : exn) :
  row_get d k = Raise e -> e = KeyError.
Proof.
  induction d as [|[l v] d IH]; cbn [row_get].
  - intros [= <-]. reflexivity.
  - destruct (String.eqb l k); [discriminate | exact IH].
Qed.

Lemma has_key_get (d : row) (k : string) :
  has_key d k = true <-> exists v, row_get d k = Ret v.
Proof.
  induction d as [|[l v] d IH]; cbn [has_key row_get].
  - split; [discriminate | intros [v H]; discriminate].
  - destruct (String.eqb l k); cbn [orb]; [|exact IH].
    split; [intros _; exists v; reflexivity | reflexivity].
Qed.

Lemma no_key_get (d : row) (k : string) :
  has_key d k = false -> row_get d k = Raise KeyError.
Proof.
  intros H. destruct (row_get d k) as [v|e] eqn:E.
  - assert (has_key d k = true) by (apply has_key_get; exists v; exact E). congruence.
  - rewrite (row_get_raises _ _ _ E). reflexivity.
Qed.

End DictFacts.

Section ExportFacts.

Variable include_voices : bool.

Lemma export_row_inv (segment r : row) :
  export_row include_voices segment = Ret r ->
  exists s1 s2 s3 s4,
    row_get segment "speaker" = Ret s1 /\
    row_get segment "start_time_formatted" = Ret s2 /\
    row_get segment "end_time_formatted" = Ret s3 /\
    row_get segment "text" = Ret s4 /\
    ((include_voices && has_key segment "voice_id" = false /\ r = base_row s1 s2 s3 s4) \/
     (include_voices && has_key segment "voice_id" = true /\
      exists v, row_get segment "voice_id" = Ret v /\
                r = (base_row s1 s2 s3 s4 ++ [("voice_id", v)])%list)).
Proof.
  unfold export_row. intros H.
  apply bind_ret_inv in H as (s1 & E1 & H).
  apply bind_ret_inv in H as (s2 & E2 & H).
  apply bind_ret_inv in H as (s3 & E3 & H).
  apply bind_ret_inv in H as (s4 & E4 & H).
  exists s1, s2, s3, s4. repeat (split; [assumption|]).
  destruct (include_voices && has_key segment "voice_id") eqn:E.
  - right. split; [reflexivity|]. injection H as <-.
    apply andb_true_iff in E as [_ E]. apply has_key_get in E as [v Hv].
    exists v. split; [exact Hv|]. unfold get_default. rewrite Hv. reflexivity.
  - left. split; [reflexivity|]. injection H as <-. reflexivity.
Qed.

Lemma export_row_raises (segment : row) (e : exn) :
  export_row include_voices segment = Raise e -> e = KeyError.
Proof.
  unfold export_row.
  destruct (row_get segment "speaker") eqn:E1; cbn [bind];
    [|intros [= <-]; exact (row_get_raises _ _ _ E1)].
  destruct (row_get segment "start_time_formatted") eqn:E2; cbn [bind];
    [|intros [= <-]; exact (row_get_raises _ _ _ E2)].
  destruct (row_get segment "end_time_formatted") eqn:E3; cbn [bind];
    [|intros [= <-]; exact (row_get_raises _ _ _ E3)].
  destruct (row_get segment "text") eqn:E4; cbn [bind];
    [|intros [= <-]; exact (row_get_raises _ _ _ E4)].
  destruct (_ && _); discriminate.
Qed.

Lemma export_row_exportable (segment r : row) :
  export_row include_voices segment = Ret r ->
  exportable segment /\ exported_from include_voices segment r.
Proof.
  intros H. apply export_row_inv in H as (s1 & s2 & s3 & s4 & E1 & E2 & E3 & E4 & Hr).
  split.
  - repeat split; apply has_key_get; eauto.
  - unfold exported_from. rewrite E1, E2, E3, E4.
    destruct Hr as [[Hb ->]|(Hb & v & Hv & ->)]; rewrite Hb.
    + repeat split; try reflexivity; [discriminate|].
      intros k Hk. cbn [has_key base_row] in Hk. cbn [In].
      repeat (apply orb_true_iff in Hk as [Hk|Hk];
              [apply String.eqb_eq in Hk; tauto|]).
      discriminate.
    + rewrite Hv. repeat split; try reflexivity.
      intros k Hk. cbn [has_key base_row app] in Hk. cbn [In].
      repeat (apply orb_true_iff in Hk as [Hk|Hk];
              [apply String.eqb_eq in Hk; tauto|]).
      discriminate.
Qed.

Lemma export_row_not_exportable (segment : row) :
  ~ exportable segment -> export_row include_voices segment = Raise KeyError.
Proof.
  intros Hn. destruct (export_row include_voices segment) as [r|e] eqn:E.
  - exfalso. apply Hn. exact (proj1 (export_row_exportable _ _ E)).
  - rewrite (export_row_raises _ _ E). reflexivity.
Qed.

Lemma export_row_returns (segment : row) :
  exportable segment -> exists r, export_row include_voices segment = Ret r.
Proof.
  intros (H1 & H2 & H3 & H4).
  apply has_key_get in H1 as [s1 E1]. apply has_key_get in H2 as [s2 E2].
  apply has_key_get in H3 as [s3 E3]. apply has_key_get in H4 as [s4 E4].
  unfold export_row. rewrite E1, E2, E3, E4. cbn [bind].
  destruct (_ && _); eexists; reflexivity.
Qed.

Lemma map_res_export (segments : list row) :
  Forall exportable segments ->
  exists df_data, map_res (export_row include_voices) segments = Ret df_data.
Proof.
  induction 1 as [|s segments Hs _ [df_data IH]]; [exists []; reflexivity|].
  destruct (export_row_returns _ Hs) as [r Hr].
  exists (r :: df_data). cbn [map_res]. rewrite Hr, IH. reflexivity.
Qed.

End ExportFacts.

(** X14. [export_csv] answers 'No segments to export' for an empty list;
    for a non-empty list in which every segment holds [speaker],
    [start_time_formatted], [end_time_formatted] and [text] it exports one
    row per segment, in order, each holding these four fields under the
    names [speaker], [start_time], [end_time], [transcription], with a
    [voice_id] cell exactly when voices are requested and the segment has
    one; a segment that lacks one of the four fields makes the whole export
    fail with the [KeyError]. *)
Theorem export_csv_outcome (segments : list row) (include_voices : bool) :
  (segments = [] ->
   export_csv segments include_voices = NoSegments "No segments to export") /\
  (segments <> [] -> Forall exportable segments ->
   exists df_data,
     export_csv segments include_voices = Exported (DataFrame df_data) /\
     Forall2 (exported_from include_voices) segments df_data) /\
  (segments <> [] -> Exists (fun s => ~ exportable s) segments ->
   export_csv segments include_voices = ExportError KeyError).
Proof.
  split; [intros ->; reflexivity|]. split.
  - intros Hne Hall. destruct (map_res_export include_voices _ Hall) as [df_data E].
    exists df_data. split.
    + unfold export_csv. destruct segments; [congruence|]. rewrite E. reflexivity.
    + apply map_res_ret_inv in E. clear Hne Hall.
      induction E as [|s r segments df_data Hsr _ IH]; constructor; [|exact IH].
      exact (proj2 (export_row_exportable _ _ _ Hsr)).
  - intros Hne Hex. unfold export_csv. destruct segments as [|s0 segments]; [congruence|].
    rewrite (map_res_raise _ _ KeyError (export_row_raises include_voices)); [reflexivity|].
    revert Hex. apply Exists_impl. intros s. apply export_row_not_exportable.
Qed.

Lemma export_csv_outcome_witness :
  export_csv
    [ [("id", "0"); ("speaker", "A"); ("start_time_formatted", "00:00:01.000");
       ("end_time_formatted", "00:00:03.000"); ("text", "Hi")];
      [("id", "1"); ("speaker", "B"); ("start_time_formatted", "00:00:03.000");
       ("end_time_formatted", "00:00:04.000")] ] true
  = ExportError KeyError.
Proof.
  refine (proj2 (proj2 (export_csv_outcome _ true)) _ _).
  - discriminate.
  - apply Exists_cons_tl, Exists_cons_hd. intros (_ & _ & _ & H). discriminate H.
Defined.
Section ExportedFrame.

Lemma export_row_keys (b : bool) (segment r : row) :
  export_row b segment = Ret r -> map fst r = export_columns \/ map fst r = export_columns_with_voices.
Proof.
  intros H. apply export_row_inv in H as (s1 & s2 & s3 & s4 & _ & _ & _ & _ & Hr).
  destruct Hr as [[_ ->]|(_ & v & _ & ->)]; [left | right]; reflexivity.
Qed.

Lemma add_keys_step (cols keys : list string) :
  cols = [] \/ cols = export_columns \/ cols = export_columns_with_voices ->
  keys = export_columns \/ keys = export_columns_with_voices ->
  fold_left (fun cs k => set_add k cs) keys cols = export_columns \/
  fold_left (fun cs k => set_add k cs) keys cols = export_columns_with_voices.
Proof.
  intros [-> | [-> | ->]] [-> | ->]; (left; reflexivity) || (right; reflexivity).
Qed.

Lemma exported_columns (df_data : list row) :
  Forall (fun r => map fst r = export_columns \/ map fst r = export_columns_with_voices) df_data ->
  df_data <> [] ->
  columns (DataFrame df_data) = export_columns \/ columns (DataFrame df_data) = export_columns_with_voices.
Proof.
  unfold DataFrame. cbn [columns].
  assert (Hgen : forall rs cols,
            Forall (fun r : row => map fst r = export_columns \/ map fst r = export_columns_with_voices) rs ->
            cols = export_columns \/ cols = export_columns_with_voices ->
            fold_left (fun cols (r : row) => fold_left (fun cs k => set_add k cs) (map fst r) cols)
                      rs cols = export_columns \/
            fold_left (fun cols (r : row) => fold_left (fun cs k => set_add k cs) (map fst r) cols)
                      rs cols = export_columns_with_voices).
  { induction rs as [|r rs IH]; intros cols Hrs Hc; [exact Hc|].
    inversion Hrs; subst. cbn [fold_left]. apply IH; [assumption|].
    apply add_keys_step; [right; exact Hc | assumption]. }
  intros Hall Hne. destruct df_data as [|r rs]; [congruence|].
  inversion Hall; subst. cbn [fold_left]. apply Hgen; [assumption|].
  apply add_keys_step; [left; reflexivity | assumption].
Qed.

Lemma exported_frame_roles (df : dataframe) :
  columns df = export_columns \/ columns df = export_columns_with_voices ->
  start_time_col (find_required_cols (strip_columns df)) = Some "start_time" /\
  end_time_col (find_required_cols (strip_columns df)) = Some "end_time" /\
  speaker_col (find_required_cols (strip_columns df)) = Some "speaker" /\
  find_source_column (strip_columns df) = Some "transcription".
Proof.
  unfold find_required_cols, find_source_column, strip_columns. cbn [columns].
  intros [->| ->]; repeat split.
Qed.

Lemma exported_row_cells (b : bool) (segment r : row) :
  export_row b segment = Ret r ->
  formatted_cell segment "start_time_formatted" ->
  formatted_cell segment "end_time_formatted" ->
  formatted_cell r "start_time" /\ formatted_cell r "end_time".
Proof.
  intros H (t1 & H1 & F1) (t2 & H2 & F2).
  destruct (export_row_exportable _ _ _ H) as [_ (_ & E1 & E2 & _)].
  split; [exists t1 | exists t2]; (split; [congruence | assumption]).
Qed.

End ExportedFrame.

(** X15. What [export_csv] exports is not read back by [upload_csv]: when
    the formatted times of the exported segments are texts of
    [format_timecode] (as they are in the answer of [upload_csv]), the data
    frame that [export_csv] builds resolves the four roles, yet each of its
    rows is dropped and [upload_csv] answers with the empty success.  (The
    CSV text written and read in between is not modelled.) *)
Theorem exported_frame_is_not_read_back
  (segments : list row) (include_voices : bool) (df : dataframe) :
  export_csv segments include_voices = Exported df ->
  Forall (fun s => formatted_cell s "start_time_formatted" /\
                   formatted_cell s "end_time_formatted") segments ->
  (forall r, role_resolved (columns df) r) /\
  upload_csv df = Success [] [] (PyInt 0).
Proof.
  unfold export_csv. intros H Hfmt.
  destruct segments as [|s0 rest]; [discriminate|].
  remember (s0 :: rest) as segs eqn:Es.
  destruct (map_res (export_row include_voices) segs) as [df_data|e] eqn:E;
    [|discriminate].
  injection H as <-. apply map_res_ret_inv in E.
  assert (Hkeys : Forall (fun r => map fst r = export_columns \/
                                   map fst r = export_columns_with_voices) df_data).
  { clear Hfmt Es. induction E as [|s r ss rs Hsr _ IH]; constructor; [|exact IH].
    exact (export_row_keys _ _ _ Hsr). }
  assert (Hne : df_data <> []).
  { intros ->. inversion E. congruence. }
  clear Es.
  pose proof (exported_columns _ Hkeys Hne) as Hcols.
  destruct (exported_frame_roles _ Hcols) as (R1 & R2 & R3 & R4).
  split.
  - intros r. apply role_resolved_spec.
    destruct Hcols as [-> | ->]; destruct r; reflexivity.
  - rewrite (upload_csv_resolved _ _ _ _ _ R1 R2 R3 R4).
    rewrite build_segments_none; [reflexivity|].
    cbn [rows DataFrame]. clear Hkeys Hne Hcols R1 R2 R3 R4.
    induction E as [|s r ss rs Hsr _ IH]; constructor.
    + inversion Hfmt as [|? ? [F1 F2] _]; subst.
      destruct (exported_row_cells _ _ _ Hsr F1 F2) as [G1 G2].
      apply formatted_row_fails; assumption.
    + apply IH. inversion Hfmt; assumption.
Qed.

Lemma exported_frame_is_not_read_back_witness :
  upload_csv
    (DataFrame [ [("speaker", "A"); ("start_time", "00:00:01.000");
                  ("end_time", "00:00:03.000"); ("transcription", "Hi")] ])
  = Success [] [] (PyInt 0).
Proof.
  refine (proj2 (exported_frame_is_not_read_back
    [ [("id", "0"); ("speaker", "A"); ("start_time", "1.0"); ("end_time", "3.0");
       ("start_time_formatted", "00:00:01.000"); ("end_time_formatted", "00:00:03.000");
       ("text", "Hi"); ("duration", "2.0")] ] false _ eq_refl _)).
  constructor; [|constructor]. split.
  - exists "00:00:01.000". split; [reflexivity|]. exists (PyInt 1). reflexivity.
  - exists "00:00:03.000". split; [reflexivity|]. exists (PyInt 3). reflexivity.
Defined.
Section DistinctRoles.

Lemma speaker_not_source (col : string) :
  is_speaker col = true -> is_source_column col = false.
Proof.
  unfold is_speaker, is_source_column. intros H.
  apply str_in_In in H. simpl in H. destruct H as [<-|[]]. reflexivity.
Qed.

Lemma start_not_source (col : string) :
  is_start_time col = true -> is_source_column col = false.
Proof.
  unfold is_start_time, is_source_column. intros H.
  apply str_in_In in H. simpl in H.
  destruct H as [<-|[<-|[<-|[]]]]; reflexivity.
Qed.

Lemma end_not_source (col : string) :
  is_end_time col = true -> is_source_column col = false.
Proof.
  unfold is_end_time, is_source_column. intros H.
  apply str_in_In in H. simpl in H.
  destruct H as [<-|[<-|[<-|[]]]]; reflexivity.
Qed.

End DistinctRoles.

(** X16. The columns that [upload_csv] resolves for the four roles are
    headers of the data frame (trimmed), each passes the keyword test of its
    role, and no column serves two roles: the four are pairwise distinct. *)
Theorem resolved_columns_are_distinct (df : dataframe) (c1 c2 c3 c4 : string) :
  start_time_col (find_required_cols (strip_columns df)) = Some c1 ->
  end_time_col (find_required_cols (strip_columns df)) = Some c2 ->
  speaker_col (find_required_cols (strip_columns df)) = Some c3 ->
  find_source_column (strip_columns df) = Some c4 ->
  NoDup [c3; c1; c2; c4] /\
  Forall (fun c => In c (map strip (columns df))) [c3; c1; c2; c4] /\
  role_matches Speaker c3 /\ role_matches StartTime c1 /\
  role_matches EndTime c2 /\ role_matches SourceText c4.
Proof.
  rewrite resolved_start_time_col, resolved_end_time_col, resolved_speaker_col,
    resolved_source_col.
  intros H1 H2 H3 H4.
  apply find_some in H1 as [I1 T1]. apply find_some in H2 as [I2 T2].
  apply find_some in H3 as [I3 T3]. apply find_some in H4 as [I4 T4].
  apply in_rev in I1, I2, I3.
  pose proof (speaker_not_start _ T3) as N31. pose proof (speaker_not_end _ T3) as N32.
  pose proof (speaker_not_source _ T3) as N34. pose proof (start_not_end _ T1) as N12.
  pose proof (start_not_source _ T1) as N14. pose proof (end_not_source _ T2) as N24.
  split; [|split].
  - repeat constructor; cbn [In]; intros H;
      repeat (destruct H as [H|H]; [subst; congruence|]); exact H.
  - repeat constructor; assumption.
  - repeat split.
    + apply (role_test_spec Speaker), T3.
    + apply (role_test_spec StartTime), T1.
    + apply (role_test_spec EndTime), T2.
    + apply (role_test_spec SourceText), T4.
Qed.

Lemma resolved_columns_are_distinct_witness :
  NoDup ["Speaker"; "Start Time"; "endtime"; "Script Line"].
Proof.
  exact (proj1 (resolved_columns_are_distinct
    {| columns := [" Speaker"; "Start Time "; "endtime"; "Script Line"]; rows := [] |}
    "Start Time" "endtime" "Speaker" "Script Line" eq_refl eq_refl eq_refl eq_refl)).
Defined.

Section FileNameFacts.




Lemma endswith_spec (suffix s : string) :
  endswith suffix s = true <-> exists base, s = (base ++ suffix)%string.
Proof.
  induction s as [|c s IH]; cbn [endswith].
  - rewrite orb_false_r, String.eqb_eq. split.
    + intros ->. exists EmptyString. reflexivity.
    + intros [base H]. destruct base; [exact (eq_sym H) | discriminate].
  - rewrite orb_true_iff, String.eqb_eq, IH. split.
    + intros [->|[base ->]]; [exists EmptyString | exists (String c base)]; reflexivity.
    + intros [base H]. destruct base as [|d base].
      * left. exact (eq_sym H).
      * right. injection H as _ ->. exists base. reflexivity.
Qed.

End FileNameFacts.



(** X18. The route [/upload-csv] reads the uploaded file only when its name
    ends, in any case, with [.csv]; it then answers with [upload_csv] of the
    data frame, or with the processing error when reading fails.  Every
    other upload (no file, an empty name, another extension) is refused
    before the file is read. *)
Theorem upload_csv_route_reads_csv_names (file : csv_upload) :
  ((exists base, lower (filename file) = (base ++ ".csv")%string) ->
   upload_csv_route (Some file) =
   Processed match read_csv file with
             | Ret df => upload_csv df
             | Raise e => ProcessingError e
             end) /\
  (~ (exists base, lower (filename file) = (base ++ ".csv")%string) ->
   exists msg, upload_csv_route (Some file) = BadRequest msg) /\
  upload_csv_route None = BadRequest "No CSV file provided".
Proof.
  split; [|split; [|reflexivity]].
  - intros H. unfold upload_csv_route.
    destruct (String.eqb (filename file) "") eqn:E.
    + apply String.eqb_eq in E. rewrite E in H. destruct H as [base H].
      destruct base; discriminate.
    + apply endswith_spec in H. rewrite H. cbn [negb].
      destruct (read_csv file); reflexivity.
  - intros H. unfold upload_csv_route.
    destruct (String.eqb (filename file) ""); [eexists; reflexivity|].
    destruct (endswith ".csv" (lower (filename file))) eqn:E.
    + exfalso. apply H. apply endswith_spec, E.
    + eexists. reflexivity.
Qed.

Lemma upload_csv_route_reads_csv_names_witness :
  upload_csv_route
    (Some {| filename := "Timeline.CSV";
             read_csv := Ret {| columns := ["speaker"; "notes"]; rows := [] |} |})
  = Processed (MissingColumns
      "Missing required columns: start_time, end_time, source (script/line/text/transcription)").
Proof.
  refine (proj1 (upload_csv_route_reads_csv_names
    {| filename := "Timeline.CSV";
       read_csv := Ret {| columns := ["speaker"; "notes"]; rows := [] |} |}) _).
  exists "timeline". reflexivity.
Defined.
Section DecimalRoundTrip.

Import PyParse PyFmt.





Lemma to_uint_nonnil (n : N) : N.to_uint n <> Decimal.Nil.
Proof.
  destruct n as [|p]; [discriminate|]. apply DecimalPos.Unsigned.to_uint_nonnil.
Qed.

Lemma decimal_unfold (n : Z) :
  decimal n = DecimalString.NilEmpty.string_of_uint (N.to_uint (Z.to_N n)).
Proof.
  unfold decimal, DecimalString.NilZero.string_of_uint.
  pose proof (to_uint_nonnil (Z.to_N n)) as H.
  destruct (N.to_uint (Z.to_N n)); [contradiction|reflexivity..].
Qed.



Lemma split_sign_digits (s : string) :
  all_chars is_digit s = true -> split_sign s = (false, s).
Proof.
  destruct s as [|c s]; [reflexivity|]. cbn [all_chars]. intros H.
  apply andb_true_iff in H as [H _].
  destruct c as [[] [] [] [] [] [] [] []]; (reflexivity || discriminate).
Qed.

Lemma digit_not_cspace (c : ascii) : is_digit c = true -> negb (is_cspace c) = true.
Proof. destruct c as [[] [] [] [] [] [] [] []]; (reflexivity || discriminate). Qed.


Lemma read_digits_acc (d : Decimal.uint) :
  forall (acc : positive) (k : Z),
    read_digits (DecimalString.NilEmpty.string_of_uint d) (Zpos acc) k =
    (Zpos (Pos.of_uint_acc d acc), k + Z.of_nat (Decimal.nb_digits d), EmptyString).
Proof.
  induction d as [|d IH|d IH|d IH|d IH|d IH|d IH|d IH|d IH|d IH|d IH]; intros acc k;
    cbn [DecimalString.NilEmpty.string_of_uint Pos.of_uint_acc Decimal.nb_digits
         read_digits];
    [rewrite Z.add_0_r; reflexivity|..];
    change (is_digit _) with true; cbv iota;
    match goal with
    | |- read_digits _ ?a _ = (Zpos (Pos.of_uint_acc _ ?p), _, _) =>
        replace a with (Zpos p)
          by (set (v := digit_value _); vm_compute in v; subst v; lia)
    end;
    rewrite IH; f_equal; f_equal; lia.
Qed.

Lemma read_digits_uint (d : Decimal.uint) (k : Z) :
  read_digits (DecimalString.NilEmpty.string_of_uint d) 0 k =
  (Z.of_N (Pos.of_uint d), k + Z.of_nat (Decimal.nb_digits d), EmptyString).
Proof.
  revert k.
  induction d as [|d IH|d IH|d IH|d IH|d IH|d IH|d IH|d IH|d IH|d IH]; intros k;
    cbn [DecimalString.NilEmpty.string_of_uint Pos.of_uint Decimal.nb_digits read_digits];
    [rewrite Z.add_0_r; reflexivity|..];
    change (is_digit _) with true; cbv iota.
  - change (10 * 0 + digit_value "0") with 0. rewrite IH. f_equal. f_equal. lia.
  - rewrite (read_digits_acc d 1). f_equal. f_equal. lia.
  - rewrite (read_digits_acc d 2). f_equal. f_equal. lia.
  - rewrite (read_digits_acc d 3). f_equal. f_equal. lia.
  - rewrite (read_digits_acc d 4). f_equal. f_equal. lia.
  - rewrite (read_digits_acc d 5). f_equal. f_equal. lia.
  - rewrite (read_digits_acc d 6). f_equal. f_equal. lia.
  - rewrite (read_digits_acc d 7). f_equal. f_equal. lia.
  - rewrite (read_digits_acc d 8). f_equal. f_equal. lia.
  - rewrite (read_digits_acc d 9). f_equal. f_equal. lia.
Qed.

Lemma read_digits_decimal (n : Z) :
  0 <= n ->
  exists k, 0 < k /\ read_digits (decimal n) 0 0 = (n, k, EmptyString).
Proof.
  intros Hn. rewrite decimal_unfold, read_digits_uint.
  change (Pos.of_uint (N.to_uint (Z.to_N n))) with (N.of_uint (N.to_uint (Z.to_N n))).
  rewrite DecimalN.Unsigned.of_to, Z2N.id by exact Hn.
  exists (0 + Z.of_nat (Decimal.nb_digits (N.to_uint (Z.to_N n)))). split; [|reflexivity].
  pose proof (to_uint_nonnil (Z.to_N n)) as H.
  destruct (N.to_uint (Z.to_N n)); [contradiction|cbn [Decimal.nb_digits]; lia..].
Qed.

Lemma drop_underscores_digits (s : string) :
  forall prev, Ascii.eqb prev "_" = false ->
    all_chars is_digit s = true -> drop_underscores s prev = Some s.
Proof.
  induction s as [|c s IH]; intros prev Hp; cbn [drop_underscores all_chars].
  - rewrite Hp. reflexivity.
  - intros H. apply andb_true_iff in H as [Hc Hs].
    assert (Hu : Ascii.eqb c "_" = false)
      by (destruct c as [[] [] [] [] [] [] [] []]; (reflexivity || discriminate)).
    rewrite Hu, Hc, andb_false_r, (IH c Hu Hs). reflexivity.
Qed.

Lemma digits_not_special (s : string) :
  all_chars is_digit s = true ->
  String.eqb (lower s) "inf" || String.eqb (lower s) "infinity" = false /\
  String.eqb (lower s) "nan" = false.
Proof.
  destruct s as [|c s]; [split; reflexivity|]. cbn [all_chars]. intros H.
  apply andb_true_iff in H as [H _]. unfold lower. cbn [map_chars String.eqb].
  destruct c as [[] [] [] [] [] [] [] []]; try discriminate; split; reflexivity.
Qed.

Lemma decimal_no_colon (n : Z) : contains ":" (decimal n) = false.
Proof.
  apply no_colon_chars, field_chars_no_colon, decimal_field_chars.
Qed.

Lemma float_of_decimal (n : Z) :
  0 <= n -> float_of_string (decimal n) = Ret (PyNum.Z2SF n).
Proof.
  intros Hn. unfold float_of_string.
  rewrite strip_by_none
    by apply (all_chars_impl is_digit _ _ digit_not_cspace (decimal_digits _)).
  rewrite (drop_underscores_digits _ " "%char eq_refl (decimal_digits n)).
  rewrite (split_sign_digits _ (decimal_digits n)).
  destruct (digits_not_special _ (decimal_digits n)) as [-> ->].
  unfold read_decimal.
  destruct (read_digits_decimal n Hn) as (k & Hk & ->).
  replace (0 <? k + 0) with true by (symmetry; apply Z.ltb_lt; lia).
  cbn [read_exponent]. unfold decimal2SF.
  destruct n as [|p|p]; [reflexivity| |lia].
  change (0 - 0) with 0. change (0 <=? 0) with true. cbv iota.
  change (10 ^ 0) with 1. rewrite Z.mul_1_r. reflexivity.
Qed.

End DecimalRoundTrip.


(** X20. A timecode written as a plain non-negative integer (no colon, no
    sign, no point) parses to that number of seconds as a float: the
    double nearest to the integer. *)
Theorem plain_integer_timecode (n : Z) :
  0 <= n -> parse_timecode (PyFmt.decimal n) = Ret (PyFloat (PyNum.Z2SF n)).
Proof.
  intros Hn. unfold parse_timecode.
  assert (E : strip (PyFmt.decimal n) = PyFmt.decimal n).
  { apply strip_by_none, field_chars_no_space, decimal_field_chars. }
  rewrite E, decimal_no_colon, (float_of_decimal n Hn). reflexivity.
Qed.

Lemma plain_integer_timecode_witness :
  parse_timecode "90" = Ret (PyFloat (S754_finite false 6333186975989760 (-46))).
Proof. apply (plain_integer_timecode 90). lia. Defined.
Section OneSegmentPerRow.





End OneSegmentPerRow.


